(** * BaseTerminal (terminal_base.h): raw-mode terminal sessions

    A shallow embedding of the class [Term::BaseTerminal] of
    [terminal_base.h].  The header has two bodies for every member,
    selected by [#ifdef _WIN32]; each is embedded in a module of its own
    ([Posix], [Win32]).  The operating system is an explicit state (the
    terminal attributes, the pending input, the window, [errno], ...) that
    every call threads through; exceptions are an outcome of the call. *)

From Stdlib Require Import ZArith List String Bool Lia.
Import ListNotations.
Open Scope Z_scope.

(** ** Exceptions and the state-and-exception monad *)

(** The only exception type the header throws: [std::runtime_error], with
    its [what()] message. *)
Inductive exn : Type :=
| runtime_error (what : string).

Inductive outcome (A : Type) : Type :=
| Returns (a : A)
| Throws (e : exn).
Arguments Returns {A} a.
Arguments Throws {A} e.

Definition is_throw {A : Type} (o : outcome A) : bool :=
  match o with Throws _ => true | Returns _ => false end.

Section Effects.
Variable W : Type.

(** A computation runs in a world and ends by returning or throwing; the
    world it leaves behind is kept in both cases. *)
Definition M (A : Type) : Type := W -> outcome A * W.

Definition ret {A : Type} (a : A) : M A := fun w => (Returns a, w).

Definition throw {A : Type} (e : exn) : M A := fun w => (Throws e, w).

Definition bind {A B : Type} (m : M A) (k : A -> M B) : M B :=
  fun w =>
    match m w with
    | (Returns a, w') => k a w'
    | (Throws e, w') => (Throws e, w')
    end.
End Effects.
Arguments ret {W A} a.
Arguments throw {W A} e.
Arguments bind {W A B} m k.

Notation "x <- m ;; k" := (bind m (fun x => k))
  (at level 61, m at next level, right associativity).
Notation "m ;;; k" := (bind m (fun _ => k))
  (at level 61, right associativity).

(** [x & ~m] on an unsigned flag word: the complement of the (int) mask is
    converted to the unsigned type before the conjunction, so the result
    is [x] with the bits of [m] cleared. *)
Definition clear_bits (x m : Z) : Z := Z.land x (Z.lnot m).

(** [a[i] = v] on an array held as a list.  The indices the header uses
    ([VMIN], [VTIME]) are below [NCCS] on every platform; out of range the
    model leaves the array as it is. *)
Fixpoint array_set (a : list Z) (i : nat) (v : Z) : list Z :=
  match a, i with
  | [], _ => []
  | _ :: tl, O => v :: tl
  | x :: tl, S j => x :: array_set tl j v
  end.

(** ** The POSIX body ([#else] branch) *)

Module Posix.

(** The constants of [<termios.h>] and [<errno.h>] the header names.
    Their values are the platform's, not the repository's: they are
    taken as parameters. *)
Class termios_h : Type := {
  BRKINT : Z; ICRNL : Z; INPCK : Z; ISTRIP : Z; IXON : Z;
  CS8 : Z;
  ECHO : Z; ICANON : Z; IEXTEN : Z; ISIG : Z;
  VMIN : nat; VTIME : nat;
  EAGAIN : Z
}.

(** The values of Linux ([asm-generic/termbits.h], [errno-base.h]). *)
Definition linux : termios_h := {|
  BRKINT := 2; ICRNL := 256; INPCK := 16; ISTRIP := 32; IXON := 1024;
  CS8 := 48;
  ECHO := 8; ICANON := 2; IEXTEN := 32768; ISIG := 1;
  VMIN := 6%nat; VTIME := 5%nat;
  EAGAIN := 11
|}.

(** [struct termios]: the members POSIX specifies. *)
Record termios : Type := mk_termios {
  c_iflag : Z;
  c_oflag : Z;
  c_cflag : Z;
  c_lflag : Z;
  c_cc : list Z
}.

(** [struct winsize] of [<sys/ioctl.h>]; the members are unsigned
    short, hence naturals. *)
Record winsize : Type := mk_winsize {
  ws_row : N;
  ws_col : N;
  ws_xpixel : N;
  ws_ypixel : N
}.

Inductive optional_actions : Type := TCSANOW | TCSADRAIN | TCSAFLUSH.

(** The system calls the header makes, as they are recorded in the
    world's trace. *)
Inductive syscall : Type :=
| sys_tcgetattr
| sys_tcsetattr (act : optional_actions) (t : termios)
| sys_read
| sys_ioctl_TIOCGWINSZ.

(** The operating system as the header sees it.  [faults] is the oracle
    of failures: every system call takes the head of the list, and
    [Some e] there makes the call fail with [errno = e] and no effect
    (an empty list, or [None], lets it proceed). *)
Record World : Type := mk_World {
  tty : termios;              (* attributes of the terminal on STDIN_FILENO *)
  input : list Z;             (* bytes received on STDIN_FILENO, not yet read *)
  window : winsize;           (* window of the terminal on STDOUT_FILENO *)
  errno : Z;
  faults : list (option Z);
  trace : list syscall        (* calls made so far, oldest first *)
}.

Definition set_tty (t : termios) (w : World) : World :=
  mk_World t (input w) (window w) (errno w) (faults w) (trace w).
Definition set_input (i : list Z) (w : World) : World :=
  mk_World (tty w) i (window w) (errno w) (faults w) (trace w).
Definition set_window (ws : winsize) (w : World) : World :=
  mk_World (tty w) (input w) ws (errno w) (faults w) (trace w).
Definition set_errno (e : Z) (w : World) : World :=
  mk_World (tty w) (input w) (window w) e (faults w) (trace w).

(** Entering a system call: it is logged and the oracle is consulted. *)
Definition enter (c : syscall) (w : World) : option Z * World :=
  let w' := mk_World (tty w) (input w) (window w) (errno w)
                     (tl (faults w)) (trace w ++ [c]) in
  match faults w with
  | Some e :: _ => (Some e, set_errno e w')
  | _ => (None, w')
  end.

(** [tcgetattr(STDIN_FILENO, &t)]: [None] stands for the result [-1],
    [Some t] for [0] with [t] stored. *)
Definition tcgetattr : M World (option termios) := fun w =>
  match enter sys_tcgetattr w with
  | (Some _, w') => (Returns None, w')
  | (None, w') => (Returns (Some (tty w')), w')
  end.

(** [tcsetattr(STDIN_FILENO, act, &t)], returning [0] or [-1].  With
    [TCSAFLUSH] the input received but not read is discarded before the
    change is made. *)
Definition tcsetattr (act : optional_actions) (t : termios) : M World Z :=
  fun w =>
    match enter (sys_tcsetattr act t) w with
    | (Some _, w') => (Returns (-1), w')
    | (None, w') =>
        let w'' := match act with
                   | TCSAFLUSH => set_input [] w'
                   | _ => w'
                   end in
        (Returns 0, set_tty t w'')
    end.

(** [read(STDIN_FILENO, s, 1)]: the result with the content of [*s]
    after the call.  With nothing to read (no byte pending under
    [VMIN = 0], or end of file) the result is [0].  [input] stands for
    the bytes the terminal has queued for reading, after its own input
    processing.  This is [read] as it answers on a terminal in the raw
    mode the constructor applies; the model does not make the answer
    depend on the mode in force (in canonical mode a real [read] waits
    for a line), so the properties of [read_raw] are stated on what
    [read] reports. *)
Definition read (s : Z) : M World (Z * Z) := fun w =>
  match enter sys_read w with
  | (Some _, w') => (Returns (-1, s), w')
  | (None, w') =>
      match input w' with
      | [] => (Returns (0, s), w')
      | b :: rest => (Returns (1, b), set_input rest w')
      end
  end.

(** [ioctl(STDOUT_FILENO, TIOCGWINSZ, &ws)]: [None] stands for [-1]. *)
Definition ioctl_TIOCGWINSZ : M World (option winsize) := fun w =>
  match enter sys_ioctl_TIOCGWINSZ w with
  | (Some _, w') => (Returns None, w')
  | (None, w') => (Returns (Some (window w')), w')
  end.

Definition get_errno : M World Z := fun w => (Returns (errno w), w).

(** The data members of the class. *)
Record BaseTerminal : Type := mk_BaseTerminal {
  orig_termios : termios
}.

Section Members.
Context {H : termios_h}.

(** The raw attributes the constructor derives from the saved ones
    (lines 79-91: the local [raw] and its updates, in order). *)
Definition make_raw (disable_ctrl_c : bool) (orig : termios) : termios :=
  let raw := orig in
  let raw := mk_termios
               (clear_bits (c_iflag raw)
                  (Z.lor (Z.lor (Z.lor (Z.lor BRKINT ICRNL) INPCK) ISTRIP) IXON))
               (c_oflag raw) (c_cflag raw) (c_lflag raw) (c_cc raw) in
  let raw := mk_termios (c_iflag raw) (c_oflag raw)
               (Z.lor (c_cflag raw) CS8)
               (c_lflag raw) (c_cc raw) in
  let raw := mk_termios (c_iflag raw) (c_oflag raw) (c_cflag raw)
               (clear_bits (c_lflag raw) (Z.lor (Z.lor ECHO ICANON) IEXTEN))
               (c_cc raw) in
  let raw := if disable_ctrl_c
             then mk_termios (c_iflag raw) (c_oflag raw) (c_cflag raw)
                    (clear_bits (c_lflag raw) ISIG) (c_cc raw)
             else raw in
  let raw := mk_termios (c_iflag raw) (c_oflag raw) (c_cflag raw)
               (c_lflag raw) (array_set (c_cc raw) VMIN 0) in
  let raw := mk_termios (c_iflag raw) (c_oflag raw) (c_cflag raw)
               (c_lflag raw) (array_set (c_cc raw) VTIME 0) in
  raw.

(** [BaseTerminal::BaseTerminal(bool disable_ctrl_c = true)], lines
    74-95. *)
Definition BaseTerminal_ctor (disable_ctrl_c : bool) : M World BaseTerminal :=
  o <- tcgetattr ;;
  match o with
  | None => throw (runtime_error "tcgetattr() failed")
  | Some orig =>
      rc <- tcsetattr TCSAFLUSH (make_raw disable_ctrl_c orig) ;;
      if rc =? -1
      then throw (runtime_error "tcsetattr() failed")
      else ret (mk_BaseTerminal orig)
  end.

(** [BaseTerminal::~BaseTerminal() noexcept(false)], lines 109-111. *)
Definition BaseTerminal_dtor (this : BaseTerminal) : M World unit :=
  rc <- tcsetattr TCSAFLUSH (orig_termios this) ;;
  if rc =? -1
  then throw (runtime_error "tcsetattr() failed in destructor")
  else ret tt.

(** [bool read_raw(char* s) const], lines 135-139: the result with the
    content of [*s] after the call. *)
Definition read_raw (this : BaseTerminal) (s : Z) : M World (bool * Z) :=
  r <- read s ;;
  let '(nread, s') := r in
  e <- get_errno ;;
  if (nread =? -1) && negb (e =? EAGAIN)
  then throw (runtime_error "read() failed")
  else ret (nread =? 1, s').

(** [void get_term_size(int& rows, int& cols) const], lines 151-157:
    the pair [(rows, cols)] it assigns. *)
Definition get_term_size (this : BaseTerminal) : M World (Z * Z) :=
  o <- ioctl_TIOCGWINSZ ;;
  match o with
  | None => throw (runtime_error "ioctl() failed")
  | Some ws =>
      if (ws_col ws =? 0)%N
      then throw (runtime_error "ioctl() failed")
      else
        let cols := Z.of_N (ws_col ws) in
        let rows := Z.of_N (ws_row ws) in
        ret (rows, cols)
  end.

(** What can happen between construction and release: the program
    calls a member, or the environment acts (input arrives, the
    window is resized).  An exception of a member is caught by the
    caller; the world it leaves is what counts. *)
Inductive event : Type :=
| call_read_raw (s : Z)
| call_get_term_size
| env_input (bytes : list Z)
| env_resize (ws : winsize).

Definition step (this : BaseTerminal) (w : World) (ev : event) : World :=
  match ev with
  | call_read_raw s => snd (read_raw this s w)
  | call_get_term_size => snd (get_term_size this w)
  | env_input bytes => set_input (input w ++ bytes) w
  | env_resize ws => set_window ws w
  end.

Definition run (this : BaseTerminal) (evs : list event) (w : World) : World :=
  fold_left (step this) evs w.

End Members.

(** Does the oracle fail the next system call? *)
Definition next_call_fails (w : World) : bool :=
  match faults w with
  | Some _ :: _ => true
  | _ => false
  end.

End Posix.

(** ** The Windows body ([#ifdef _WIN32] branch) *)

Module Win32.

(** The console-mode flags of [<windows.h>] the header names, and
    [ENABLE_PROCESSED_INPUT], the flag it does not name: while it is set
    the system handles Ctrl-C itself and does not place it in the input
    buffer.  Their values are the platform's: they are parameters. *)
Class wincon_h : Type := {
  ENABLE_VIRTUAL_TERMINAL_PROCESSING : Z;
  DISABLE_NEWLINE_AUTO_RETURN : Z;
  ENABLE_VIRTUAL_TERMINAL_INPUT : Z;
  ENABLE_LINE_INPUT : Z;
  ENABLE_ECHO_INPUT : Z;
  ENABLE_PROCESSED_INPUT : Z
}.

(** The values of the Windows SDK ([consoleapi.h]). *)
Definition winsdk : wincon_h := {|
  ENABLE_VIRTUAL_TERMINAL_PROCESSING := 4;
  DISABLE_NEWLINE_AUTO_RETURN := 8;
  ENABLE_VIRTUAL_TERMINAL_INPUT := 512;
  ENABLE_LINE_INPUT := 2;
  ENABLE_ECHO_INPUT := 4;
  ENABLE_PROCESSED_INPUT := 1
|}.

Inductive std_device : Type := STD_INPUT_HANDLE | STD_OUTPUT_HANDLE.

(** [HANDLE], as far as the header can tell handles apart: the console's
    screen buffer, its input buffer, and the invalid handle. *)
Inductive HANDLE : Type := INVALID_HANDLE_VALUE | CONOUT | CONIN.

Definition HANDLE_eqb (a b : HANDLE) : bool :=
  match a, b with
  | INVALID_HANDLE_VALUE, INVALID_HANDLE_VALUE => true
  | CONOUT, CONOUT => true
  | CONIN, CONIN => true
  | _, _ => false
  end.

(** [SMALL_RECT]; the members are SHORT. *)
Record SMALL_RECT : Type := mk_SMALL_RECT {
  Left : Z;
  Top : Z;
  Right : Z;
  Bottom : Z
}.

(** [CONSOLE_SCREEN_BUFFER_INFO]: the member the header reads. *)
Record CONSOLE_SCREEN_BUFFER_INFO : Type := mk_CSBI {
  srWindow : SMALL_RECT
}.

Inductive call : Type :=
| call_GetStdHandle (d : std_device)
| call_GetConsoleMode (h : HANDLE)
| call_SetConsoleMode (h : HANDLE) (mode : Z)
| call_kbhit
| call_ReadFile (h : HANDLE)
| call_GetConsoleScreenBufferInfo (h : HANDLE).

(** The console as the header sees it.  [faults] is the oracle of
    failures: every API call that can fail takes the head of the list,
    and [true] there makes the call fail with no effect.  [key_waiting]
    is what [kbhit()] answers; the model states no relation between it
    and [input], as the header expects none. *)
Record World : Type := mk_World {
  out_mode : Z;               (* mode of the console screen buffer *)
  in_mode : Z;                (* mode of the console input buffer *)
  key_waiting : bool;
  input : list Z;             (* bytes ReadFile can deliver *)
  screen : CONSOLE_SCREEN_BUFFER_INFO;
  faults : list bool;
  trace : list call           (* calls made so far, oldest first *)
}.

Definition set_out_mode (m : Z) (w : World) : World :=
  mk_World m (in_mode w) (key_waiting w) (input w) (screen w) (faults w) (trace w).
Definition set_in_mode (m : Z) (w : World) : World :=
  mk_World (out_mode w) m (key_waiting w) (input w) (screen w) (faults w) (trace w).
Definition set_key_waiting (k : bool) (w : World) : World :=
  mk_World (out_mode w) (in_mode w) k (input w) (screen w) (faults w) (trace w).
Definition set_input (i : list Z) (w : World) : World :=
  mk_World (out_mode w) (in_mode w) (key_waiting w) i (screen w) (faults w) (trace w).
Definition set_screen (s : CONSOLE_SCREEN_BUFFER_INFO) (w : World) : World :=
  mk_World (out_mode w) (in_mode w) (key_waiting w) (input w) s (faults w) (trace w).

Definition log (c : call) (w : World) : World :=
  mk_World (out_mode w) (in_mode w) (key_waiting w) (input w) (screen w)
           (faults w) (trace w ++ [c]).

(** Entering a call that can fail: it is logged and the oracle is
    consulted. *)
Definition enter (c : call) (w : World) : bool * World :=
  let w' := mk_World (out_mode w) (in_mode w) (key_waiting w) (input w)
                     (screen w) (tl (faults w)) (trace w ++ [c]) in
  (hd false (faults w), w').

Definition GetStdHandle (d : std_device) : M World HANDLE := fun w =>
  match enter (call_GetStdHandle d) w with
  | (true, w') => (Returns INVALID_HANDLE_VALUE, w')
  | (false, w') =>
      (Returns (match d with
                | STD_OUTPUT_HANDLE => CONOUT
                | STD_INPUT_HANDLE => CONIN
                end), w')
  end.

(** [GetConsoleMode(h, &mode)]: [None] stands for the result [FALSE],
    [Some m] for [TRUE] with [m] stored. *)
Definition GetConsoleMode (h : HANDLE) : M World (option Z) := fun w =>
  match enter (call_GetConsoleMode h) w with
  | (true, w') => (Returns None, w')
  | (false, w') =>
      (Returns (match h with
                | CONOUT => Some (out_mode w')
                | CONIN => Some (in_mode w')
                | INVALID_HANDLE_VALUE => None
                end), w')
  end.

(** [SetConsoleMode(h, mode)], returning the BOOL. *)
Definition SetConsoleMode (h : HANDLE) (mode : Z) : M World bool := fun w =>
  match enter (call_SetConsoleMode h mode) w with
  | (true, w') => (Returns false, w')
  | (false, w') =>
      match h with
      | CONOUT => (Returns true, set_out_mode mode w')
      | CONIN => (Returns true, set_in_mode mode w')
      | INVALID_HANDLE_VALUE => (Returns false, w')
      end
  end.

Definition kbhit : M World bool := fun w =>
  (Returns (key_waiting w), log call_kbhit w).

(** [ReadFile(h, buf, 1, &nread, nullptr)]: [None] stands for the result
    [FALSE], [Some bytes] for [TRUE] with [bytes] stored in [buf] and
    their number in [nread]. *)
Definition ReadFile (h : HANDLE) : M World (option (list Z)) := fun w =>
  match enter (call_ReadFile h) w with
  | (true, w') => (Returns None, w')
  | (false, w') =>
      match h with
      | CONIN =>
          match input w' with
          | [] => (Returns (Some []), w')
          | b :: rest => (Returns (Some [b]), set_input rest w')
          end
      | _ => (Returns None, w')
      end
  end.

(** [GetConsoleScreenBufferInfo(h, &inf)]: the BOOL with the content of
    [inf] after the call, which is its content before when the call
    fails. *)
Definition GetConsoleScreenBufferInfo (h : HANDLE)
    (inf : CONSOLE_SCREEN_BUFFER_INFO)
  : M World (bool * CONSOLE_SCREEN_BUFFER_INFO) := fun w =>
  match enter (call_GetConsoleScreenBufferInfo h) w with
  | (true, w') => (Returns (false, inf), w')
  | (false, w') =>
      match h with
      | CONOUT => (Returns (true, screen w'), w')
      | _ => (Returns (false, inf), w')
      end
  end.

(** The data members of the class. *)
Record BaseTerminal : Type := mk_BaseTerminal {
  hout : HANDLE;
  hin : HANDLE;
  dwOriginalOutMode : Z;
  dwOriginalInMode : Z
}.

Section Members.
Context {H : wincon_h}.

(** [BaseTerminal::BaseTerminal(bool disable_ctrl_c = true)], lines
    45-72.  The argument is not used in this body. *)
Definition BaseTerminal_ctor (disable_ctrl_c : bool) : M World BaseTerminal :=
  hout <- GetStdHandle STD_OUTPUT_HANDLE ;;
  if HANDLE_eqb hout INVALID_HANDLE_VALUE
  then throw (runtime_error "GetStdHandle(STD_OUTPUT_HANDLE) failed")
  else
  hin <- GetStdHandle STD_INPUT_HANDLE ;;
  if HANDLE_eqb hin INVALID_HANDLE_VALUE
  then throw (runtime_error "GetStdHandle(STD_INPUT_HANDLE) failed")
  else
  o <- GetConsoleMode hout ;;
  match o with
  | None => throw (runtime_error "GetConsoleMode() failed")
  | Some dwOriginalOutMode =>
  o <- GetConsoleMode hin ;;
  match o with
  | None => throw (runtime_error "GetConsoleMode() failed")
  | Some dwOriginalInMode =>
  let dwRequestedOutModes :=
    Z.lor ENABLE_VIRTUAL_TERMINAL_PROCESSING DISABLE_NEWLINE_AUTO_RETURN in
  let dwRequestedInModes := ENABLE_VIRTUAL_TERMINAL_INPUT in
  let dwOutMode := Z.lor dwOriginalOutMode dwRequestedOutModes in
  ok <- SetConsoleMode hout dwOutMode ;;
  if negb ok
  then throw (runtime_error "SetConsoleMode() failed")
  else
  let dwInMode := Z.lor dwOriginalInMode dwRequestedInModes in
  let dwInMode :=
    clear_bits dwInMode (Z.lor ENABLE_LINE_INPUT ENABLE_ECHO_INPUT) in
  ok <- SetConsoleMode hin dwInMode ;;
  if negb ok
  then throw (runtime_error "SetConsoleMode() failed")
  else ret (mk_BaseTerminal hout hin dwOriginalOutMode dwOriginalInMode)
  end
  end.

(** [BaseTerminal::~BaseTerminal() noexcept(false)], lines 102-107. *)
Definition BaseTerminal_dtor (this : BaseTerminal) : M World unit :=
  ok <- SetConsoleMode (hout this) (dwOriginalOutMode this) ;;
  if negb ok
  then throw (runtime_error "SetConsoleMode() failed in destructor")
  else
  ok <- SetConsoleMode (hin this) (dwOriginalInMode this) ;;
  if negb ok
  then throw (runtime_error "SetConsoleMode() failed in destructor")
  else ret tt.

(** [bool read_raw(char* s) const], lines 119-133: the result with the
    content of [*s] after the call. *)
Definition read_raw (this : BaseTerminal) (s : Z) : M World (bool * Z) :=
  k <- kbhit ;;
  if k
  then
    o <- ReadFile (hin this) ;;
    match o with
    | None => throw (runtime_error "ReadFile() failed")
    | Some buf =>
        let nread := Z.of_nat (List.length buf) in
        if nread =? 1
        then ret (true, hd s buf)
        else throw (runtime_error "kbhit() and ReadFile() inconsistent")
    end
  else ret (false, s).

(** [void get_term_size(int& rows, int& cols) const], lines 146-149:
    the pair [(rows, cols)] it assigns.  [inf] is the content of the
    local of that name when the body starts: it is not initialised, and
    the result of [GetConsoleScreenBufferInfo] is not tested. *)
Definition get_term_size (this : BaseTerminal)
    (inf : CONSOLE_SCREEN_BUFFER_INFO) : M World (Z * Z) :=
  r <- GetConsoleScreenBufferInfo (hout this) inf ;;
  let inf := snd r in
  let cols := Right (srWindow inf) - Left (srWindow inf) + 1 in
  let rows := Bottom (srWindow inf) - Top (srWindow inf) + 1 in
  ret (rows, cols).

(** What can happen between construction and release: the program
    calls a member, or the environment acts (a key is pressed or
    taken, input arrives, the window changes). *)
Inductive event : Type :=
| call_read_raw (s : Z)
| call_get_term_size (inf : CONSOLE_SCREEN_BUFFER_INFO)
| env_key (waiting : bool)
| env_input (bytes : list Z)
| env_resize (info : CONSOLE_SCREEN_BUFFER_INFO).

Definition step (this : BaseTerminal) (w : World) (ev : event) : World :=
  match ev with
  | call_read_raw s => snd (read_raw this s w)
  | call_get_term_size inf => snd (get_term_size this inf w)
  | env_key k => set_key_waiting k w
  | env_input bytes => set_input (input w ++ bytes) w
  | env_resize info => set_screen info w
  end.

Definition run (this : BaseTerminal) (evs : list event) (w : World) : World :=
  fold_left (step this) evs w.

End Members.

(** Does the oracle fail the next API call? *)
Definition next_call_fails (w : World) : bool := hd false (faults w).

(** The handle [GetStdHandle] gives for a standard device. *)
Definition device (d : std_device) : HANDLE :=
  match d with
  | STD_OUTPUT_HANDLE => CONOUT
  | STD_INPUT_HANDLE => CONIN
  end.

(** The two console modes are what the session configures: [w'] has
    those of [w]. *)
Definition same_modes (w w' : World) : Prop :=
  out_mode w' = out_mode w /\ in_mode w' = in_mode w.

(** A session whose handles are those of the console, as the
    constructor leaves them. *)
Definition on_console (this : BaseTerminal) : Prop :=
  hout this = CONOUT /\ hin this = CONIN.

(** The modes the constructor asks for ([dwOutMode], [dwInMode]), as
    functions of the modes it found. *)
Definition raw_out_mode {H : wincon_h} (orig : Z) : Z :=
  Z.lor orig (Z.lor ENABLE_VIRTUAL_TERMINAL_PROCESSING DISABLE_NEWLINE_AUTO_RETURN).

Definition raw_in_mode {H : wincon_h} (orig : Z) : Z :=
  clear_bits (Z.lor orig ENABLE_VIRTUAL_TERMINAL_INPUT)
             (Z.lor ENABLE_LINE_INPUT ENABLE_ECHO_INPUT).

End Win32.

(** ** Sample terminals *)

Module Sample.

(** A Linux terminal in its usual cooked mode: [ICRNL | IXON | ...] on
    input, [OPOST | ONLCR] on output, [ISIG | ICANON | ECHO | IEXTEN |
    ...] local, the usual control characters; 24 rows of 80 columns. *)
Definition cooked : Posix.termios :=
  Posix.mk_termios 11522 5 191 35387
    [3; 28; 127; 21; 4; 0; 1; 0; 17; 19; 26; 0; 18; 15; 23; 22;
     0; 0; 0; 0; 0; 0; 0; 0; 0; 0; 0; 0; 0; 0; 0; 0].

Definition xterm : Posix.World :=
  Posix.mk_World cooked [] (Posix.mk_winsize 24 80 0 0) 0 [] [].

(** The same terminal with a fixed oracle, pending input or another
    window. *)
Definition xterm_with (faults : list (option Z)) (input : list Z)
    (ws : Posix.winsize) : Posix.World :=
  Posix.mk_World cooked input ws 0 faults [].

(** A Windows console in its usual mode: processed, wrapping output;
    processed, line-buffered, echoed input; a window of 25 rows of 80
    columns. *)
Definition window_80x25 : Win32.CONSOLE_SCREEN_BUFFER_INFO :=
  Win32.mk_CSBI (Win32.mk_SMALL_RECT 0 0 79 24).

Definition conhost : Win32.World :=
  Win32.mk_World 3 7 false [] window_80x25 [] [].

Definition conhost_with (faults : list bool) (key : bool) (input : list Z)
    (info : Win32.CONSOLE_SCREEN_BUFFER_INFO) : Win32.World :=
  Win32.mk_World 3 7 key input info faults [].

End Sample.

(** ** Ranges of the C types *)

Module Range.

(** [tcflag_t] (unsigned int) and [DWORD] (unsigned long of 32 bits). *)
Definition uint32 (x : Z) : Prop := 0 <= x < 2 ^ 32.

(** [SHORT], the type of the members of [SMALL_RECT]. *)
Definition SHORT (x : Z) : Prop := - 2 ^ 15 <= x < 2 ^ 15.

(** [unsigned short], the type of the members of [struct winsize]. *)
Definition ushort (x : N) : Prop := (x < 2 ^ 16)%N.

(** [int], the type of [rows] and [cols]. *)
Definition int (x : Z) : Prop := - 2 ^ 31 <= x < 2 ^ 31.

(** A [struct termios] whose four flag words are values of [tcflag_t]. *)
Definition termios_flags (t : Posix.termios) : Prop :=
  uint32 (Posix.c_iflag t) /\ uint32 (Posix.c_oflag t)
  /\ uint32 (Posix.c_cflag t) /\ uint32 (Posix.c_lflag t).

(** A [SMALL_RECT] whose four members are values of [SHORT]. *)
Definition small_rect (r : Win32.SMALL_RECT) : Prop :=
  SHORT (Win32.Left r) /\ SHORT (Win32.Top r)
  /\ SHORT (Win32.Right r) /\ SHORT (Win32.Bottom r).

End Range.

(** ** Callers *)

Module Caller.

(** Does the oracle fail the [n]-th system call from now (counting from
    0)? *)
Definition posix_call_fails (n : nat) (w : Posix.World) : bool :=
  match nth_error (Posix.faults w) n with
  | Some (Some _) => true
  | _ => false
  end.

End Caller.

(** * Properties *)

(** Unfolding a member down to the system calls it makes. *)
Ltac unfold_m := unfold bind, ret, throw in *.

(** Deciding the test of the conditional the goal is stuck on. *)
Ltac case_if :=
  match goal with
  | |- context [if ?c then _ else _] => destruct c eqn:?
  end.

(** ** Facts about the POSIX body *)

Module PosixFacts.
Import Posix.

Lemma enter_tty (c : syscall) (w : World) :
  tty (snd (enter c w)) = tty w.
Proof.
  unfold enter. destruct (faults w) as [|[e|] fs]; reflexivity.
Qed.

(** A failing [tcsetattr] changes nothing of the terminal; a succeeding
    one installs the attributes it is given. *)
Lemma tcsetattr_result (act : optional_actions) (t : termios) (w : World) :
  exists w',
    tcsetattr act t w = (Returns (if next_call_fails w then -1 else 0), w')
    /\ tty w' = (if next_call_fails w then tty w else t)
    /\ trace w' = trace w ++ [sys_tcsetattr act t].
Proof.
  unfold tcsetattr, enter, next_call_fails.
  destruct (faults w) as [|[e|] fs]; simpl;
    eexists; (split; [reflexivity|]); destruct act; split; reflexivity.
Qed.

Lemma tcgetattr_result (w : World) :
  exists w',
    tcgetattr w
    = (Returns (if next_call_fails w then None else Some (tty w)), w')
    /\ tty w' = tty w
    /\ trace w' = trace w ++ [sys_tcgetattr].
Proof.
  unfold tcgetattr, enter, next_call_fails.
  destruct (faults w) as [|[e|] fs]; simpl;
    eexists; (split; [reflexivity|]); split; reflexivity.
Qed.

(** What [read] reports, by the oracle and the pending input. *)
Lemma read_result (s : Z) (w : World) :
  exists w1,
    (next_call_fails w = true
     /\ read s w = (Returns (-1, s), w1) /\ input w1 = input w)
    \/ (next_call_fails w = false /\ input w = []
        /\ read s w = (Returns (0, s), w1) /\ input w1 = input w)
    \/ (next_call_fails w = false
        /\ exists b, read s w = (Returns (1, b), w1)
                     /\ input w = b :: input w1).
Proof.
  unfold read, enter, next_call_fails.
  destruct (faults w) as [|[e|] fs]; simpl.
  - destruct (input w) as [|b rest]; eexists.
    + right. left. repeat split; reflexivity.
    + right. right. split; [reflexivity|]. exists b. split; reflexivity.
  - eexists. left. repeat split; reflexivity.
  - destruct (input w) as [|b rest]; eexists.
    + right. left. repeat split; reflexivity.
    + right. right. split; [reflexivity|]. exists b. split; reflexivity.
Qed.

(** [get_term_size], by the outcome of [ioctl] and the width it
    reports. *)
Lemma get_term_size_result (this : BaseTerminal) (w : World) :
  fst (get_term_size this w)
  = if next_call_fails w || (ws_col (window w) =? 0)%N
    then Throws (runtime_error "ioctl() failed")
    else Returns (Z.of_N (ws_row (window w)), Z.of_N (ws_col (window w))).
Proof.
  unfold get_term_size, ioctl_TIOCGWINSZ, enter, next_call_fails.
  unfold_m.
  destruct (faults w) as [|[e|] fs]; simpl;
    try destruct (ws_col (window w) =? 0)%N; reflexivity.
Qed.

Section WithConstants.
Context {H : termios_h}.

(** The members that are [const] leave the terminal attributes alone. *)
Lemma read_raw_tty (this : BaseTerminal) (s : Z) (w : World) :
  tty (snd (read_raw this s w)) = tty w.
Proof.
  unfold read_raw, read, get_errno. unfold_m.
  pose proof (enter_tty sys_read w) as E.
  destruct (enter sys_read w) as [[e|] w']; simpl in *.
  - case_if; simpl; exact E.
  - destruct (input w') as [|b rest]; simpl;
      try case_if; simpl; exact E.
Qed.

Lemma get_term_size_tty (this : BaseTerminal) (w : World) :
  tty (snd (get_term_size this w)) = tty w.
Proof.
  unfold get_term_size, ioctl_TIOCGWINSZ. unfold_m.
  pose proof (enter_tty sys_ioctl_TIOCGWINSZ w) as E.
  destruct (enter sys_ioctl_TIOCGWINSZ w) as [[e|] w']; simpl in *.
  - exact E.
  - case_if; simpl; exact E.
Qed.

Lemma step_tty (this : BaseTerminal) (w : World) (ev : event) :
  tty (step this w ev) = tty w.
Proof.
  destruct ev; simpl.
  - apply read_raw_tty.
  - apply get_term_size_tty.
  - reflexivity.
  - reflexivity.
Qed.

Lemma run_tty (this : BaseTerminal) (evs : list event) :
  forall w, tty (run this evs w) = tty w.
Proof.
  unfold run. induction evs as [|ev evs IH]; intros w; simpl.
  - reflexivity.
  - rewrite IH. apply step_tty.
Qed.

(** The constructor, by the outcome of its two system calls. *)
Lemma tty_ctor_returns (d : bool) (w0 w1 : World) (this : BaseTerminal) :
  BaseTerminal_ctor d w0 = (Returns this, w1) ->
  orig_termios this = tty w0 /\ tty w1 = make_raw d (tty w0).
Proof.
  unfold BaseTerminal_ctor. unfold_m.
  destruct (tcgetattr_result w0) as (wa & Ea & Ta & _). rewrite Ea.
  destruct (next_call_fails w0); [discriminate|].
  destruct (tcsetattr_result TCSAFLUSH (make_raw d (tty w0)) wa)
    as (wb & Eb & Tb & _).
  rewrite Eb. destruct (next_call_fails wa); simpl; [discriminate|].
  intros E. inversion E; subst. split; [reflexivity | exact Tb].
Qed.

Lemma tty_ctor_throws (d : bool) (w0 w1 : World) (e : exn) :
  BaseTerminal_ctor d w0 = (Throws e, w1) ->
  tty w1 = tty w0.
Proof.
  unfold BaseTerminal_ctor. unfold_m.
  destruct (tcgetattr_result w0) as (wa & Ea & Ta & _). rewrite Ea.
  destruct (next_call_fails w0).
  - intros E. inversion E; subst. exact Ta.
  - destruct (tcsetattr_result TCSAFLUSH (make_raw d (tty w0)) wa)
      as (wb & Eb & Tb & _).
    rewrite Eb. destruct (next_call_fails wa); simpl.
    + intros E. inversion E; subst. congruence.
    + discriminate.
Qed.

(** The destructor, by the outcome of its system call. *)
Lemma tty_dtor_result (this : BaseTerminal) (w : World) :
  exists w',
    BaseTerminal_dtor this w
    = ((if next_call_fails w
        then Throws (runtime_error "tcsetattr() failed in destructor")
        else Returns tt), w')
    /\ tty w' = (if next_call_fails w then tty w else orig_termios this)
    /\ trace w' = trace w ++ [sys_tcsetattr TCSAFLUSH (orig_termios this)].
Proof.
  unfold BaseTerminal_dtor. unfold_m.
  destruct (tcsetattr_result TCSAFLUSH (orig_termios this) w)
    as (w' & E & T & L).
  rewrite E. exists w'.
  destruct (next_call_fails w); simpl; auto.
Qed.

(** What the constructor does to signal generation: [ISIG] is cleared
    when [disable_ctrl_c] is set, and keeps its value otherwise (it is
    not one of the flags cleared unconditionally). *)
Lemma make_raw_clears_ISIG (t : termios) :
  Z.land (c_lflag (make_raw true t)) ISIG = 0.
Proof.
  simpl. unfold clear_bits.
  rewrite <- Z.land_assoc, (Z.land_comm (Z.lnot ISIG) ISIG),
    Z.land_lnot_diag, Z.land_0_r.
  reflexivity.
Qed.

Lemma make_raw_keeps_ISIG (t : termios) :
  Z.land ISIG (Z.lor (Z.lor ECHO ICANON) IEXTEN) = 0 ->
  Z.land (c_lflag (make_raw false t)) ISIG = Z.land (c_lflag t) ISIG.
Proof.
  intros D. simpl. unfold clear_bits.
  apply Z.bits_inj'. intros n Hn.
  rewrite !Z.land_spec, Z.lnot_spec by exact Hn.
  assert (B : Z.testbit (Z.land ISIG (Z.lor (Z.lor ECHO ICANON) IEXTEN)) n
              = false) by (rewrite D; apply Z.bits_0).
  rewrite Z.land_spec in B.
  destruct (Z.testbit ISIG n), (Z.testbit (c_lflag t) n),
    (Z.testbit (Z.lor (Z.lor ECHO ICANON) IEXTEN) n);
    simpl in *; congruence.
Qed.

(** The terminal attributes after the constructor, by its outcome. *)
Lemma tty_after_ctor (d : bool) (w0 : World) :
  tty (snd (BaseTerminal_ctor d w0))
  = if is_throw (fst (BaseTerminal_ctor d w0))
    then tty w0
    else make_raw d (tty w0).
Proof.
  destruct (BaseTerminal_ctor d w0) as [[this|e] w1] eqn:E; simpl.
  - apply tty_ctor_returns in E. apply E.
  - apply tty_ctor_throws in E. exact E.
Qed.

End WithConstants.
End PosixFacts.

(** ** Facts about the Windows body *)

Module Win32Facts.
Import Win32.

Lemma same_modes_refl (w : World) : same_modes w w.
Proof. split; reflexivity. Qed.

Lemma same_modes_trans (w1 w2 w3 : World) :
  same_modes w1 w2 -> same_modes w2 w3 -> same_modes w1 w3.
Proof. unfold same_modes. intros [A B] [C D]. split; congruence. Qed.

Lemma GetStdHandle_result (d : std_device) (w : World) :
  exists w',
    GetStdHandle d w
    = (Returns (if next_call_fails w then INVALID_HANDLE_VALUE else device d), w')
    /\ same_modes w w'
    /\ trace w' = trace w ++ [call_GetStdHandle d].
Proof.
  unfold GetStdHandle, enter, next_call_fails.
  destruct (faults w) as [|[|] fs]; simpl; eexists;
    (split; [reflexivity|]); (split; [split|]); reflexivity.
Qed.

Lemma GetConsoleMode_out (w : World) :
  exists w',
    GetConsoleMode CONOUT w
    = (Returns (if next_call_fails w then None else Some (out_mode w)), w')
    /\ same_modes w w'
    /\ trace w' = trace w ++ [call_GetConsoleMode CONOUT].
Proof.
  unfold GetConsoleMode, enter, next_call_fails.
  destruct (faults w) as [|[|] fs]; simpl; eexists;
    (split; [reflexivity|]); (split; [split|]); reflexivity.
Qed.

Lemma GetConsoleMode_in (w : World) :
  exists w',
    GetConsoleMode CONIN w
    = (Returns (if next_call_fails w then None else Some (in_mode w)), w')
    /\ same_modes w w'
    /\ trace w' = trace w ++ [call_GetConsoleMode CONIN].
Proof.
  unfold GetConsoleMode, enter, next_call_fails.
  destruct (faults w) as [|[|] fs]; simpl; eexists;
    (split; [reflexivity|]); (split; [split|]); reflexivity.
Qed.

(** A failing [SetConsoleMode] changes neither mode; a succeeding one
    installs the mode it is given in the buffer of its handle. *)
Lemma SetConsoleMode_out (m : Z) (w : World) :
  exists w',
    SetConsoleMode CONOUT m w = (Returns (negb (next_call_fails w)), w')
    /\ out_mode w' = (if next_call_fails w then out_mode w else m)
    /\ in_mode w' = in_mode w
    /\ trace w' = trace w ++ [call_SetConsoleMode CONOUT m]
    /\ faults w' = tl (faults w).
Proof.
  unfold SetConsoleMode, enter, next_call_fails.
  destruct (faults w) as [|[|] fs]; simpl; eexists;
    (split; [reflexivity|]); repeat split; reflexivity.
Qed.

Lemma SetConsoleMode_in (m : Z) (w : World) :
  exists w',
    SetConsoleMode CONIN m w = (Returns (negb (next_call_fails w)), w')
    /\ out_mode w' = out_mode w
    /\ in_mode w' = (if next_call_fails w then in_mode w else m)
    /\ trace w' = trace w ++ [call_SetConsoleMode CONIN m]
    /\ faults w' = tl (faults w).
Proof.
  unfold SetConsoleMode, enter, next_call_fails.
  destruct (faults w) as [|[|] fs]; simpl; eexists;
    (split; [reflexivity|]); repeat split; reflexivity.
Qed.

Section WithConstants.
Context {H : wincon_h}.

(** The constructor never looks at its argument. *)
Lemma ctor_ignores_disable_ctrl_c (d d' : bool) (w : World) :
  BaseTerminal_ctor d w = BaseTerminal_ctor d' w.
Proof. reflexivity. Qed.

(** The constructor, call by call: where it stops and what it has
    done to the two modes by then. *)
Lemma console_ctor_result (d : bool) (w0 : World) :
  exists w1,
    (exists this,
        BaseTerminal_ctor d w0 = (Returns this, w1)
        /\ this = mk_BaseTerminal CONOUT CONIN (out_mode w0) (in_mode w0)
        /\ out_mode w1 = raw_out_mode (out_mode w0)
        /\ in_mode w1 = raw_in_mode (in_mode w0))
    \/ (exists e,
        BaseTerminal_ctor d w0 = (Throws e, w1)
        /\ same_modes w0 w1)
    \/ (BaseTerminal_ctor d w0
        = (Throws (runtime_error "SetConsoleMode() failed"), w1)
        /\ out_mode w1 = raw_out_mode (out_mode w0)
        /\ in_mode w1 = in_mode w0
        /\ exists w', next_call_fails w' = true
             /\ trace w1 = trace w'
                 ++ [call_SetConsoleMode CONIN (raw_in_mode (in_mode w0))]
             /\ exists w'', trace w' = trace w''
                 ++ [call_SetConsoleMode CONOUT (raw_out_mode (out_mode w0))]).
Proof.
  unfold BaseTerminal_ctor. unfold_m.
  destruct (GetStdHandle_result STD_OUTPUT_HANDLE w0) as (wa & Ea & [Oa Ia] & _).
  rewrite Ea. destruct (next_call_fails w0); simpl.
  { exists wa. right. left. eexists. split; [reflexivity | split; assumption]. }
  destruct (GetStdHandle_result STD_INPUT_HANDLE wa) as (wb & Eb & [Ob Ib] & _).
  rewrite Eb. destruct (next_call_fails wa); simpl.
  { exists wb. right. left. eexists. split; [reflexivity | split; congruence]. }
  destruct (GetConsoleMode_out wb) as (wc & Ec & [Oc Ic] & _).
  rewrite Ec. destruct (next_call_fails wb); simpl.
  { exists wc. right. left. eexists. split; [reflexivity | split; congruence]. }
  destruct (GetConsoleMode_in wc) as (wd & Ed & [Od Id] & _).
  rewrite Ed. destruct (next_call_fails wc); simpl.
  { exists wd. right. left. eexists. split; [reflexivity | split; congruence]. }
  fold (raw_out_mode (out_mode wb)). fold (raw_in_mode (in_mode wc)).
  destruct (SetConsoleMode_out (raw_out_mode (out_mode wb)) wd)
    as (we & Ee & Oe & Ie & Le & _).
  rewrite Ee. destruct (next_call_fails wd); simpl.
  { exists we. right. left. eexists. split; [reflexivity | split; congruence]. }
  destruct (SetConsoleMode_in (raw_in_mode (in_mode wc)) we)
    as (wf & Ef & Of & If & Lf & _).
  rewrite Ef. destruct (next_call_fails we) eqn:Fe; simpl.
  - exists wf. right. right.
    replace (out_mode wb) with (out_mode w0) in * by congruence.
    replace (in_mode wc) with (in_mode w0) in * by congruence.
    split; [reflexivity|]. split; [congruence|]. split; [congruence|].
    exists we. split; [exact Fe|]. split; [exact Lf|].
    exists wd. exact Le.
  - exists wf. left. eexists. split; [reflexivity|].
    replace (out_mode wb) with (out_mode w0) in * by congruence.
    replace (in_mode wc) with (in_mode w0) in * by congruence.
    split; [reflexivity|]. split; congruence.
Qed.

(** The destructor on a constructed session, by the outcome of its
    two calls. *)
Lemma console_dtor_result (this : BaseTerminal) (w : World) :
  on_console this ->
  exists w',
    BaseTerminal_dtor this w
    = ((if hd false (faults w) || hd false (tl (faults w))
        then Throws (runtime_error "SetConsoleMode() failed in destructor")
        else Returns tt), w')
    /\ out_mode w'
       = (if hd false (faults w) then out_mode w else dwOriginalOutMode this)
    /\ in_mode w'
       = (if hd false (faults w) || hd false (tl (faults w))
          then in_mode w else dwOriginalInMode this)
    /\ trace w'
       = trace w
           ++ call_SetConsoleMode CONOUT (dwOriginalOutMode this)
           :: (if hd false (faults w) then []
               else [call_SetConsoleMode CONIN (dwOriginalInMode this)]).
Proof.
  intros [Ho Hi]. unfold BaseTerminal_dtor. unfold_m. rewrite Ho, Hi.
  destruct (SetConsoleMode_out (dwOriginalOutMode this) w)
    as (wa & Ea & Oa & Ia & La & Fa).
  rewrite Ea. unfold next_call_fails in *.
  destruct (hd false (faults w)); simpl.
  { exists wa. repeat split; assumption. }
  destruct (SetConsoleMode_in (dwOriginalInMode this) wa)
    as (wb & Eb & Ob & Ib & Lb & Fb).
  rewrite Eb. unfold next_call_fails in *. rewrite Fa in *.
  exists wb. rewrite Lb, La, <- app_assoc. simpl.
  destruct (hd false (tl (faults w))); simpl;
    repeat split; congruence.
Qed.

(** The members that are [const] leave both console modes alone. *)
Lemma read_raw_modes (this : BaseTerminal) (s : Z) (w : World) :
  same_modes w (snd (read_raw this s w)).
Proof.
  unfold read_raw, kbhit, ReadFile, enter. unfold_m. simpl.
  destruct (key_waiting w); simpl; [|split; reflexivity].
  destruct (hd false (faults w)); simpl; [split; reflexivity|].
  destruct (hin this); simpl; try (split; reflexivity).
  destruct (input w) as [|b rest]; simpl; split; reflexivity.
Qed.

Lemma get_term_size_modes (this : BaseTerminal)
    (inf : CONSOLE_SCREEN_BUFFER_INFO) (w : World) :
  same_modes w (snd (get_term_size this inf w)).
Proof.
  unfold get_term_size, GetConsoleScreenBufferInfo, enter. unfold_m. simpl.
  destruct (hd false (faults w)); simpl; [split; reflexivity|].
  destruct (hout this); simpl; split; reflexivity.
Qed.

Lemma step_modes (this : BaseTerminal) (w : World) (ev : event) :
  same_modes w (step this w ev).
Proof.
  destruct ev; simpl.
  - apply read_raw_modes.
  - apply get_term_size_modes.
  - split; reflexivity.
  - split; reflexivity.
  - split; reflexivity.
Qed.

Lemma run_modes (this : BaseTerminal) (evs : list event) :
  forall w, same_modes w (run this evs w).
Proof.
  unfold run. induction evs as [|ev evs IH]; intros w; simpl.
  - apply same_modes_refl.
  - eapply same_modes_trans; [apply step_modes | apply IH].
Qed.

End WithConstants.
End Win32Facts.

(** * The claims *)

(** C1 - Round-trip restoration.  On either platform: when a session has
    been constructed, whatever members are called and whatever the
    environment does in between, a release that completes leaves the
    terminal configuration equal to the one the constructor found and
    saved before changing it (the whole [termios] on POSIX; the output
    and the input mode of the console on Windows). *)
Theorem round_trip_restoration :
  (forall (H : Posix.termios_h) (d : bool) (w0 w1 w3 : Posix.World)
          (this : Posix.BaseTerminal) (evs : list Posix.event),
      Posix.BaseTerminal_ctor d w0 = (Returns this, w1) ->
      Posix.BaseTerminal_dtor this (Posix.run this evs w1) = (Returns tt, w3) ->
      Posix.orig_termios this = Posix.tty w0
      /\ Posix.tty w3 = Posix.tty w0)
  /\
  (forall (H : Win32.wincon_h) (d : bool) (w0 w1 w3 : Win32.World)
          (this : Win32.BaseTerminal) (evs : list Win32.event),
      Win32.BaseTerminal_ctor d w0 = (Returns this, w1) ->
      Win32.BaseTerminal_dtor this (Win32.run this evs w1) = (Returns tt, w3) ->
      (Win32.dwOriginalOutMode this = Win32.out_mode w0
       /\ Win32.dwOriginalInMode this = Win32.in_mode w0)
      /\ Win32.out_mode w3 = Win32.out_mode w0
      /\ Win32.in_mode w3 = Win32.in_mode w0).
Proof.
  split.
  - intros H d w0 w1 w3 this evs Hc Hd.
    apply PosixFacts.tty_ctor_returns in Hc. destruct Hc as [Ho _].
    split; [exact Ho|].
    destruct (PosixFacts.tty_dtor_result this (Posix.run this evs w1))
      as (w' & E & T & _).
    rewrite E in Hd.
    destruct (Posix.next_call_fails (Posix.run this evs w1));
      [discriminate|].
    inversion Hd; subst. congruence.
  - intros H d w0 w1 w3 this evs Hc Hd.
    destruct (Win32Facts.console_ctor_result d w0)
      as (w1' & [(this' & E & Ht & _) | [(e & E & _) | (E & _)]]);
      rewrite E in Hc; try discriminate.
    inversion Hc; subst this' w1'; clear Hc. subst this. simpl.
    split; [split; reflexivity|].
    set (this := Win32.mk_BaseTerminal _ _ _ _) in *.
    destruct (Win32Facts.console_dtor_result this (Win32.run this evs w1))
      as (w' & E' & O & I & _); [split; reflexivity|].
    rewrite E' in Hd.
    destruct (hd false (Win32.faults (Win32.run this evs w1))); simpl in *;
      [discriminate|].
    destruct (hd false (tl (Win32.faults (Win32.run this evs w1)))); simpl in *;
      [discriminate|].
    inversion Hd; subst. split; assumption.
Qed.

(** A session on each platform that reads, asks the size and sees input
    arrive before it is released. *)
Lemma round_trip_restoration_witness :
  (let w0 := Sample.xterm_with [] [97; 13] (Posix.mk_winsize 24 80 0 0) in
   let this := Posix.mk_BaseTerminal Sample.cooked in
   let evs := [Posix.env_input [27]; Posix.call_read_raw 0;
               Posix.call_get_term_size] in
   let w1 := snd (@Posix.BaseTerminal_ctor Posix.linux true w0) in
   let w3 := snd (Posix.BaseTerminal_dtor this
                    (@Posix.run Posix.linux this evs w1)) in
   Posix.orig_termios this = Posix.tty w0 /\ Posix.tty w3 = Posix.tty w0)
  /\
  (let w0 := Sample.conhost in
   let this := Win32.mk_BaseTerminal Win32.CONOUT Win32.CONIN 3 7 in
   let evs := [Win32.env_key true; Win32.env_input [27];
               Win32.call_read_raw 0;
               Win32.call_get_term_size Sample.window_80x25] in
   let w1 := snd (@Win32.BaseTerminal_ctor Win32.winsdk true w0) in
   let w3 := snd (Win32.BaseTerminal_dtor this (Win32.run this evs w1)) in
   (Win32.dwOriginalOutMode this = Win32.out_mode w0
    /\ Win32.dwOriginalInMode this = Win32.in_mode w0)
   /\ Win32.out_mode w3 = Win32.out_mode w0
   /\ Win32.in_mode w3 = Win32.in_mode w0).
Proof.
  split; intros w0 this evs w1 w3.
  - apply (proj1 round_trip_restoration Posix.linux true w0 w1 w3 this evs);
      vm_compute; reflexivity.
  - apply (proj2 round_trip_restoration Win32.winsdk true w0 w1 w3 this evs);
      vm_compute; reflexivity.
Defined.

(** C8 - Restoration failure is never silent.  When a call that reapplies
    the saved configuration fails in the destructor ([tcsetattr] gives
    [-1]; either [SetConsoleMode] gives [FALSE]), the destructor ends by
    throwing [std::runtime_error] to its caller; and it never returns
    normally without the saved configuration being in place. *)
Theorem restoration_failure_is_surfaced :
  (forall (this : Posix.BaseTerminal) (w w1 : Posix.World),
      Posix.tcsetattr Posix.TCSAFLUSH (Posix.orig_termios this) w
      = (Returns (-1), w1) ->
      Posix.BaseTerminal_dtor this w
      = (Throws (runtime_error "tcsetattr() failed in destructor"), w1))
  /\
  (forall (this : Posix.BaseTerminal) (w w1 : Posix.World),
      Posix.BaseTerminal_dtor this w = (Returns tt, w1) ->
      Posix.tty w1 = Posix.orig_termios this)
  /\
  (forall (this : Win32.BaseTerminal) (w w1 : Win32.World),
      Win32.SetConsoleMode (Win32.hout this) (Win32.dwOriginalOutMode this) w
      = (Returns false, w1) ->
      Win32.BaseTerminal_dtor this w
      = (Throws (runtime_error "SetConsoleMode() failed in destructor"), w1))
  /\
  (forall (this : Win32.BaseTerminal) (w w1 w2 : Win32.World),
      Win32.SetConsoleMode (Win32.hout this) (Win32.dwOriginalOutMode this) w
      = (Returns true, w1) ->
      Win32.SetConsoleMode (Win32.hin this) (Win32.dwOriginalInMode this) w1
      = (Returns false, w2) ->
      Win32.BaseTerminal_dtor this w
      = (Throws (runtime_error "SetConsoleMode() failed in destructor"), w2))
  /\
  (forall (this : Win32.BaseTerminal) (w w1 : Win32.World),
      Win32.on_console this ->
      Win32.BaseTerminal_dtor this w = (Returns tt, w1) ->
      Win32.out_mode w1 = Win32.dwOriginalOutMode this
      /\ Win32.in_mode w1 = Win32.dwOriginalInMode this).
Proof.
  split; [|split; [|split; [|split]]].
  - intros this w w1 E. unfold Posix.BaseTerminal_dtor. unfold_m.
    rewrite E. reflexivity.
  - intros this w w1 E.
    destruct (PosixFacts.tty_dtor_result this w) as (w' & E' & T & _).
    rewrite E' in E. destruct (Posix.next_call_fails w); [discriminate|].
    inversion E; subst. exact T.
  - intros this w w1 E. unfold Win32.BaseTerminal_dtor. unfold_m.
    rewrite E. reflexivity.
  - intros this w w1 w2 E1 E2. unfold Win32.BaseTerminal_dtor. unfold_m.
    rewrite E1. simpl. rewrite E2. reflexivity.
  - intros this w w1 Hc E.
    destruct (Win32Facts.console_dtor_result this w Hc) as (w' & E' & O & I & _).
    rewrite E' in E.
    destruct (hd false (Win32.faults w)); simpl in *; [discriminate|].
    destruct (hd false (tl (Win32.faults w))); [discriminate|].
    inversion E; subst. split; assumption.
Qed.

(** The system rejects the restoring call (EIO on the terminal; the
    second [SetConsoleMode] on the console): the destructor throws. *)
Lemma restoration_failure_is_surfaced_witness :
  (let this := Posix.mk_BaseTerminal Sample.cooked in
   let w := Sample.xterm_with [Some 5] [] (Posix.mk_winsize 24 80 0 0) in
   fst (Posix.BaseTerminal_dtor this w)
   = Throws (runtime_error "tcsetattr() failed in destructor"))
  /\
  (let this := Win32.mk_BaseTerminal Win32.CONOUT Win32.CONIN 3 7 in
   let w := Sample.conhost_with [false; true] false [] Sample.window_80x25 in
   fst (Win32.BaseTerminal_dtor this w)
   = Throws (runtime_error "SetConsoleMode() failed in destructor")).
Proof.
  split.
  - intros this w.
    rewrite (proj1 restoration_failure_is_surfaced this w
               (snd (Posix.tcsetattr Posix.TCSAFLUSH Sample.cooked w)));
      reflexivity.
  - intros this w.
    rewrite (proj1 (proj2 (proj2 (proj2 restoration_failure_is_surfaced)))
               this w
               (snd (Win32.SetConsoleMode Win32.CONOUT 3 w))
               (snd (Win32.SetConsoleMode Win32.CONIN 7
                       (snd (Win32.SetConsoleMode Win32.CONOUT 3 w)))));
      reflexivity.
Defined.

(** C10 - End of file is reported as absence.  On the POSIX body, when
    the underlying [read] gives 0 bytes and no error, [read_raw] returns
    [false] and leaves [*s] as it was: the very outcome of the case where
    [read] gives [-1] with [errno = EAGAIN].  It does not throw and has
    no third outcome. *)
Theorem eof_is_reported_as_absence :
  forall (H : Posix.termios_h) (this : Posix.BaseTerminal) (s : Z)
         (w : Posix.World),
    (forall s' w1,
        Posix.read s w = (Returns (0, s'), w1) ->
        Posix.read_raw this s w = (Returns (false, s), w1))
    /\
    (forall s' w1,
        Posix.read s w = (Returns (-1, s'), w1) ->
        Posix.errno w1 = Posix.EAGAIN ->
        Posix.read_raw this s w = (Returns (false, s), w1)).
Proof.
  intros H this s w.
  destruct (PosixFacts.read_result s w)
    as (wr & [(_ & E & _) | [(_ & _ & E & _) | (_ & b & E & _)]]);
    split; intros s' w1 R; rewrite E in R; inversion R; subst;
    unfold Posix.read_raw, Posix.get_errno; unfold_m; rewrite E; simpl.
  - intros Ee. rewrite Ee, Z.eqb_refl. reflexivity.
  - reflexivity.
Qed.

(** Standard input at end of file, and a [read] that gives [EAGAIN]. *)
Lemma eof_is_reported_as_absence_witness :
  (let this := Posix.mk_BaseTerminal Sample.cooked in
   let w := Sample.xterm in
   fst (@Posix.read_raw Posix.linux this 65 w) = Returns (false, 65))
  /\
  (let this := Posix.mk_BaseTerminal Sample.cooked in
   let w := Sample.xterm_with [Some 11] [97] (Posix.mk_winsize 24 80 0 0) in
   fst (@Posix.read_raw Posix.linux this 65 w) = Returns (false, 65)).
Proof.
  split; intros this w.
  - rewrite (proj1 (eof_is_reported_as_absence Posix.linux this 65 w)
               65 (snd (Posix.read 65 w))); reflexivity.
  - rewrite (proj2 (eof_is_reported_as_absence Posix.linux this 65 w)
               65 (snd (Posix.read 65 w))); reflexivity.
Defined.

(** C4, as the claim states it, fails on the Windows body: a key press is
    reported, [ReadFile] succeeds and delivers no byte (it reports no
    error), and [read_raw] throws. *)
Lemma read_raw_raises_without_read_error :
  let this := Win32.mk_BaseTerminal Win32.CONOUT Win32.CONIN 3 7 in
  let w := Sample.conhost_with [] true [] Sample.window_80x25 in
  fst (Win32.ReadFile (Win32.hin this) (snd (Win32.kbhit w)))
  = Returns (Some [])
  /\ fst (Win32.read_raw this 0 w)
     = Throws (runtime_error "kbhit() and ReadFile() inconsistent").
Proof. split; reflexivity. Qed.

(** C4, amended - when [read_raw] raises.  On the POSIX body it throws
    exactly when [read] gives [-1] with an [errno] other than [EAGAIN];
    with nothing to read ([read] gives 0, or [-1] with [EAGAIN]) it
    returns [false] and consumes nothing; when [read] delivers a byte it
    returns [true] with that byte, the first of the pending input, and
    consumes it alone.  On the Windows body it returns [false] without
    reading when [kbhit()] reports no key; when a key is reported it
    throws if [ReadFile] fails and also if [ReadFile] succeeds with no
    byte, and returns the byte [ReadFile] delivers otherwise; at most one
    byte is consumed. *)
Theorem read_raw_raises_iff :
  (forall (H : Posix.termios_h) (this : Posix.BaseTerminal) (s : Z)
          (w : Posix.World) (nread s' : Z) (w1 : Posix.World),
      Posix.read s w = (Returns (nread, s'), w1) ->
      (is_throw (fst (Posix.read_raw this s w)) = true
       <-> nread = -1 /\ Posix.errno w1 <> Posix.EAGAIN)
      /\ (nread = -1 /\ Posix.errno w1 <> Posix.EAGAIN ->
          Posix.read_raw this s w
          = (Throws (runtime_error "read() failed"), w1))
      /\ (nread = 0 \/ (nread = -1 /\ Posix.errno w1 = Posix.EAGAIN) ->
          Posix.read_raw this s w = (Returns (false, s), w1)
          /\ Posix.input w1 = Posix.input w)
      /\ (nread = 1 ->
          Posix.read_raw this s w = (Returns (true, s'), w1)
          /\ Posix.input w = s' :: Posix.input w1)
      /\ (nread = -1 \/ nread = 0 \/ nread = 1))
  /\
  (forall (this : Win32.BaseTerminal) (s : Z) (w : Win32.World),
      (Win32.key_waiting w = false ->
       Win32.read_raw this s w = (Returns (false, s), snd (Win32.kbhit w)))
      /\
      (Win32.key_waiting w = true ->
       forall (o : option (list Z)) (w1 : Win32.World),
         Win32.ReadFile (Win32.hin this) (snd (Win32.kbhit w))
         = (Returns o, w1) ->
         Win32.read_raw this s w
         = (match o with
            | None => Throws (runtime_error "ReadFile() failed")
            | Some [b] => Returns (true, b)
            | Some _ =>
                Throws (runtime_error "kbhit() and ReadFile() inconsistent")
            end, w1)
         /\ (Win32.input w1 = Win32.input w
             \/ exists b, o = Some [b]
                          /\ Win32.input w = b :: Win32.input w1))).
Proof.
  split.
  - intros H this s w nread s' w1 R.
    assert (Hrr : Posix.read_raw this s w
                  = (if (nread =? -1) && negb (Posix.errno w1 =? Posix.EAGAIN)
                     then Throws (runtime_error "read() failed")
                     else Returns (nread =? 1, s'), w1)).
    { unfold Posix.read_raw, Posix.get_errno. unfold_m. rewrite R. simpl.
      destruct ((nread =? -1) && negb (Posix.errno w1 =? Posix.EAGAIN));
        reflexivity. }
    destruct (PosixFacts.read_result s w)
      as (wr & [(_ & E & I) | [(_ & _ & E & I) | (_ & b & E & I)]]);
      rewrite E in R; inversion R; subst nread s' wr; clear R;
      rewrite Hrr; simpl.
    + destruct (Z.eqb_spec (Posix.errno w1) Posix.EAGAIN) as [Ee|Ne]; simpl;
        repeat split; intros;
        intuition (try lia; try congruence; try discriminate).
    + repeat split; intros;
        intuition (try lia; try congruence; try discriminate).
    + repeat split; intros;
        intuition (try lia; try congruence; try discriminate).
  - intros this s w. unfold Win32.read_raw, Win32.kbhit. unfold_m. simpl.
    split; intros K; rewrite K; [reflexivity|].
    intros o w1 R. rewrite R.
    split.
    + destruct o as [[|b [|c l]]|]; try reflexivity.
      destruct (Z.eqb_spec (Z.of_nat (List.length (b :: c :: l))) 1) as [L|L];
        [|reflexivity].
      exfalso. simpl List.length in L. lia.
    + revert R. unfold Win32.ReadFile, Win32.enter, Win32.log. simpl.
      destruct (hd false (Win32.faults w)); simpl.
      { intros R; inversion R; subst. left. reflexivity. }
      destruct (Win32.hin this); simpl;
        try (intros R; inversion R; subst; left; reflexivity).
      destruct (Win32.input w) as [|b rest]; simpl;
        intros R; inversion R; subst; simpl.
      * left. reflexivity.
      * right. exists b. split; reflexivity.
Qed.

(** A byte waiting on the terminal, a [read] failing with EIO, and a
    byte waiting on the console. *)
Lemma read_raw_raises_iff_witness :
  (let this := Posix.mk_BaseTerminal Sample.cooked in
   let w := Sample.xterm_with [] [97; 13; 27] (Posix.mk_winsize 24 80 0 0) in
   let w1 := snd (Posix.read 0 w) in
   @Posix.read_raw Posix.linux this 0 w = (Returns (true, 97), w1)
   /\ Posix.input w = 97 :: Posix.input w1)
  /\
  (let this := Posix.mk_BaseTerminal Sample.cooked in
   let w := Sample.xterm_with [Some 5] [97] (Posix.mk_winsize 24 80 0 0) in
   let w1 := snd (Posix.read 0 w) in
   @Posix.read_raw Posix.linux this 0 w
   = (Throws (runtime_error "read() failed"), w1))
  /\
  (let this := Win32.mk_BaseTerminal Win32.CONOUT Win32.CONIN 3 7 in
   let w := Sample.conhost_with [] true [97] Sample.window_80x25 in
   let w1 := snd (Win32.ReadFile Win32.CONIN (snd (Win32.kbhit w))) in
   Win32.read_raw this 0 w = (Returns (true, 97), w1)).
Proof.
  split; [|split].
  - intros this w w1.
    apply (proj1 read_raw_raises_iff Posix.linux this 0 w 1 97 w1);
      reflexivity.
  - intros this w w1.
    apply (proj1 read_raw_raises_iff Posix.linux this 0 w (-1) 0 w1).
    + reflexivity.
    + split; [reflexivity | vm_compute; discriminate].
  - intros this w w1.
    apply (proj2 (proj2 read_raw_raises_iff this 0 w) eq_refl (Some [97]) w1).
    reflexivity.
Defined.

(** C3, as the claim states it, fails on the POSIX body: a window that
    reports no rows and 80 columns is returned as [(0, 80)]. *)
Lemma get_term_size_returns_zero_rows :
  let this := Posix.mk_BaseTerminal Sample.cooked in
  let w := Sample.xterm_with [] [] (Posix.mk_winsize 0 80 0 0) in
  fst (Posix.get_term_size this w) = Returns (0, 80).
Proof. reflexivity. Qed.

(** C3, amended - size query.  On the POSIX body [get_term_size] throws
    when [ioctl] fails or reports zero columns; otherwise it returns the
    reported pair, whose column count is positive and whose row count is
    not negative, and is positive when the window reports a row.  On the
    Windows body, when [GetConsoleScreenBufferInfo] succeeds on a window
    whose edges are in order, it returns positive rows and columns. *)
Theorem get_term_size_positivity :
  (forall (this : Posix.BaseTerminal) (w : Posix.World),
      (Posix.next_call_fails w = true \/ Posix.ws_col (Posix.window w) = 0%N ->
       fst (Posix.get_term_size this w)
       = Throws (runtime_error "ioctl() failed"))
      /\
      (Posix.next_call_fails w = false ->
       Posix.ws_col (Posix.window w) <> 0%N ->
       let rows := Z.of_N (Posix.ws_row (Posix.window w)) in
       let cols := Z.of_N (Posix.ws_col (Posix.window w)) in
       fst (Posix.get_term_size this w) = Returns (rows, cols)
       /\ 0 < cols /\ 0 <= rows
       /\ (Posix.ws_row (Posix.window w) <> 0%N -> 0 < rows)))
  /\
  (forall (this : Win32.BaseTerminal) (inf : Win32.CONSOLE_SCREEN_BUFFER_INFO)
          (w : Win32.World),
      Win32.on_console this ->
      Win32.next_call_fails w = false ->
      let r := Win32.srWindow (Win32.screen w) in
      Win32.Left r <= Win32.Right r ->
      Win32.Top r <= Win32.Bottom r ->
      let rows := Win32.Bottom r - Win32.Top r + 1 in
      let cols := Win32.Right r - Win32.Left r + 1 in
      fst (Win32.get_term_size this inf w) = Returns (rows, cols)
      /\ 0 < rows /\ 0 < cols).
Proof.
  split.
  - intros this w. rewrite PosixFacts.get_term_size_result.
    destruct (N.eqb_spec (Posix.ws_col (Posix.window w)) 0) as [C|C];
      destruct (Posix.next_call_fails w); simpl;
      (split; [intros [F|Z]; try reflexivity; try discriminate; contradiction
              | intros F NZ; try discriminate; try contradiction;
                repeat split; lia]).
  - intros this inf w [Ho _] F r LR TB rows cols.
    unfold Win32.get_term_size, Win32.GetConsoleScreenBufferInfo, Win32.enter.
    unfold_m. unfold Win32.next_call_fails in F. rewrite F, Ho. simpl.
    subst rows cols r. repeat split; lia.
Qed.

(** An 80x24 terminal, a terminal that reports no columns, and an 80x25
    console. *)
Lemma get_term_size_positivity_witness :
  (let this := Posix.mk_BaseTerminal Sample.cooked in
   fst (Posix.get_term_size this Sample.xterm) = Returns (24, 80)
   /\ 0 < 80 /\ 0 <= 24 /\ (24%N <> 0%N -> 0 < 24))
  /\
  (let this := Posix.mk_BaseTerminal Sample.cooked in
   let w := Sample.xterm_with [] [] (Posix.mk_winsize 24 0 0 0) in
   fst (Posix.get_term_size this w) = Throws (runtime_error "ioctl() failed"))
  /\
  (let this := Win32.mk_BaseTerminal Win32.CONOUT Win32.CONIN 3 7 in
   fst (Win32.get_term_size this Sample.window_80x25 Sample.conhost)
   = Returns (25, 80)
   /\ 0 < 25 /\ 0 < 80).
Proof.
  split; [|split].
  - intros this.
    apply (proj2 (proj1 get_term_size_positivity this Sample.xterm));
      [reflexivity | discriminate].
  - intros this w.
    apply (proj1 (proj1 get_term_size_positivity this w)).
    right. reflexivity.
  - intros this.
    apply (proj2 get_term_size_positivity this Sample.window_80x25
             Sample.conhost);
      [split; reflexivity | reflexivity | discriminate | discriminate].
Defined.

(** C5, as the claim states it, fails: the destructor run a second time
    on a released session calls [tcsetattr] with the saved attributes
    again, and throws when that call fails (here with EIO). *)
Lemma second_release_is_not_a_noop :
  let w0 := Sample.xterm_with [None; None; None; Some 5] []
              (Posix.mk_winsize 24 80 0 0) in
  let this := Posix.mk_BaseTerminal Sample.cooked in
  let w1 := snd (@Posix.BaseTerminal_ctor Posix.linux true w0) in
  let w2 := snd (Posix.BaseTerminal_dtor this w1) in
  let w3 := snd (Posix.BaseTerminal_dtor this w2) in
  fst (@Posix.BaseTerminal_ctor Posix.linux true w0) = Returns this
  /\ fst (Posix.BaseTerminal_dtor this w1) = Returns tt
  /\ fst (Posix.BaseTerminal_dtor this w2)
     = Throws (runtime_error "tcsetattr() failed in destructor")
  /\ Posix.trace w3
     = Posix.trace w2 ++ [Posix.sys_tcsetattr Posix.TCSAFLUSH Sample.cooked].
Proof. repeat split; reflexivity. Qed.

(** C5, amended - releasing twice.  After a release that completed, a
    second run of the destructor leaves the terminal configuration as the
    first left it; it is not a no-op: it makes the restoring call(s)
    again, and it throws when such a call fails. *)
Theorem release_twice :
  (forall (this : Posix.BaseTerminal) (w w1 w2 : Posix.World)
          (r2 : outcome unit),
      Posix.BaseTerminal_dtor this w = (Returns tt, w1) ->
      Posix.BaseTerminal_dtor this w1 = (r2, w2) ->
      Posix.tty w2 = Posix.tty w1
      /\ Posix.trace w2
         = Posix.trace w1
             ++ [Posix.sys_tcsetattr Posix.TCSAFLUSH (Posix.orig_termios this)]
      /\ (is_throw r2 = Posix.next_call_fails w1))
  /\
  (forall (this : Win32.BaseTerminal) (w w1 w2 : Win32.World)
          (r2 : outcome unit),
      Win32.on_console this ->
      Win32.BaseTerminal_dtor this w = (Returns tt, w1) ->
      Win32.BaseTerminal_dtor this w1 = (r2, w2) ->
      Win32.same_modes w1 w2
      /\ (exists calls,
             Win32.trace w2
             = Win32.trace w1
                 ++ Win32.call_SetConsoleMode Win32.CONOUT
                      (Win32.dwOriginalOutMode this) :: calls)
      /\ (is_throw r2
          = hd false (Win32.faults w1) || hd false (tl (Win32.faults w1)))).
Proof.
  split.
  - intros this w w1 w2 r2 E1 E2.
    destruct (PosixFacts.tty_dtor_result this w) as (wa & Ea & Ta & _).
    rewrite Ea in E1. destruct (Posix.next_call_fails w); [discriminate|].
    inversion E1; subst wa; clear E1.
    destruct (PosixFacts.tty_dtor_result this w1) as (wb & Eb & Tb & Lb).
    rewrite Eb in E2. inversion E2; subst r2 wb; clear E2.
    destruct (Posix.next_call_fails w1); simpl; repeat split; congruence.
  - intros this w w1 w2 r2 Hc E1 E2.
    destruct (Win32Facts.console_dtor_result this w Hc)
      as (wa & Ea & Oa & Ia & _).
    rewrite Ea in E1.
    destruct (hd false (Win32.faults w)); simpl in *; [discriminate|].
    destruct (hd false (tl (Win32.faults w))); [discriminate|].
    inversion E1; subst wa; clear E1.
    destruct (Win32Facts.console_dtor_result this w1 Hc)
      as (wb & Eb & Ob & Ib & Lb).
    rewrite Eb in E2. inversion E2; subst r2 wb; clear E2.
    split; [|split].
    + split.
      * rewrite Ob. destruct (hd false (Win32.faults w1)); congruence.
      * rewrite Ib.
        destruct (hd false (Win32.faults w1) || hd false (tl (Win32.faults w1)));
          congruence.
    + eexists. exact Lb.
    + destruct (hd false (Win32.faults w1) || hd false (tl (Win32.faults w1)));
        reflexivity.
Qed.

(** Two releases in a row, on the terminal and on the console. *)
Lemma release_twice_witness :
  (let this := Posix.mk_BaseTerminal Sample.cooked in
   let w1 := snd (Posix.BaseTerminal_dtor this Sample.xterm) in
   let w2 := snd (Posix.BaseTerminal_dtor this w1) in
   Posix.tty w2 = Posix.tty w1
   /\ Posix.trace w2
      = Posix.trace w1 ++ [Posix.sys_tcsetattr Posix.TCSAFLUSH Sample.cooked]
   /\ is_throw (fst (Posix.BaseTerminal_dtor this w1))
      = Posix.next_call_fails w1)
  /\
  (let this := Win32.mk_BaseTerminal Win32.CONOUT Win32.CONIN 3 7 in
   let w1 := snd (Win32.BaseTerminal_dtor this Sample.conhost) in
   let w2 := snd (Win32.BaseTerminal_dtor this w1) in
   Win32.same_modes w1 w2
   /\ (exists calls,
          Win32.trace w2
          = Win32.trace w1 ++ Win32.call_SetConsoleMode Win32.CONOUT 3 :: calls)
   /\ is_throw (fst (Win32.BaseTerminal_dtor this w1))
      = hd false (Win32.faults w1) || hd false (tl (Win32.faults w1))).
Proof.
  split.
  - intros this w1 w2.
    apply (proj1 release_twice this Sample.xterm w1 w2); reflexivity.
  - intros this w1 w2.
    apply (proj2 release_twice this Sample.conhost w1 w2);
      [split; reflexivity | reflexivity | reflexivity].
Defined.

(** C6, as the claim states it, fails: on a session that was constructed
    and released, [get_term_size] returns the window, as on a live
    session, on either body, and [read_raw] on the Windows body, no key
    being reported, returns [false]; none of them throws. *)
Lemma members_run_after_release :
  (let w0 := Sample.xterm in
   let this := Posix.mk_BaseTerminal Sample.cooked in
   let w1 := snd (@Posix.BaseTerminal_ctor Posix.linux true w0) in
   let w2 := snd (Posix.BaseTerminal_dtor this w1) in
   fst (@Posix.BaseTerminal_ctor Posix.linux true w0) = Returns this
   /\ fst (Posix.BaseTerminal_dtor this w1) = Returns tt
   /\ fst (Posix.get_term_size this w2) = Returns (24, 80))
  /\
  (let w0 := Sample.conhost in
   let this := Win32.mk_BaseTerminal Win32.CONOUT Win32.CONIN 3 7 in
   let w1 := snd (@Win32.BaseTerminal_ctor Win32.winsdk true w0) in
   let w2 := snd (Win32.BaseTerminal_dtor this w1) in
   fst (@Win32.BaseTerminal_ctor Win32.winsdk true w0) = Returns this
   /\ fst (Win32.BaseTerminal_dtor this w1) = Returns tt
   /\ fst (Win32.get_term_size this Sample.window_80x25 w2) = Returns (25, 80)
   /\ fst (Win32.read_raw this 0 w2) = Returns (false, 0)).
Proof. repeat split; reflexivity. Qed.

(** C6, amended - members after release.  The session keeps no record of
    having been released.  After a release that completed,
    [get_term_size] makes its query as before and returns the window when
    the query succeeds (and, on POSIX, reports a column).  [read_raw]
    makes its calls as before, and its outcome follows from what they
    report as on a live session: on POSIX it throws exactly when [read]
    gives [-1] with an [errno] other than [EAGAIN], and returns whether
    one byte was read otherwise; on Windows it returns [false] when no
    key is reported, and with a key reported it throws when [ReadFile]
    fails or delivers no byte and returns the byte delivered otherwise.
    What [read] or [ReadFile] reports on a terminal whose mode has been
    restored is not part of the statement. *)
Theorem members_after_release :
  (forall (H : Posix.termios_h) (this : Posix.BaseTerminal)
          (w w1 : Posix.World),
      Posix.BaseTerminal_dtor this w = (Returns tt, w1) ->
      (forall (s nread s' : Z) (w2 : Posix.World),
          Posix.read s w1 = (Returns (nread, s'), w2) ->
          Posix.read_raw this s w1
          = (if (nread =? -1) && negb (Posix.errno w2 =? Posix.EAGAIN)
             then Throws (runtime_error "read() failed")
             else Returns (nread =? 1, s'), w2))
      /\ (Posix.next_call_fails w1 = false ->
          Posix.ws_col (Posix.window w1) <> 0%N ->
          fst (Posix.get_term_size this w1)
          = Returns (Z.of_N (Posix.ws_row (Posix.window w1)),
                     Z.of_N (Posix.ws_col (Posix.window w1)))))
  /\
  (forall (this : Win32.BaseTerminal) (w w1 : Win32.World),
      Win32.on_console this ->
      Win32.BaseTerminal_dtor this w = (Returns tt, w1) ->
      (forall inf,
          Win32.next_call_fails w1 = false ->
          let r := Win32.srWindow (Win32.screen w1) in
          fst (Win32.get_term_size this inf w1)
          = Returns (Win32.Bottom r - Win32.Top r + 1,
                     Win32.Right r - Win32.Left r + 1))
      /\ (forall s, Win32.key_waiting w1 = false ->
                    Win32.read_raw this s w1
                    = (Returns (false, s), snd (Win32.kbhit w1)))
      /\ (forall (s : Z) (o : option (list Z)) (w2 : Win32.World),
             Win32.key_waiting w1 = true ->
             Win32.ReadFile (Win32.hin this) (snd (Win32.kbhit w1))
             = (Returns o, w2) ->
             Win32.read_raw this s w1
             = (match o with
                | None => Throws (runtime_error "ReadFile() failed")
                | Some [b] => Returns (true, b)
                | Some _ =>
                    Throws
                      (runtime_error "kbhit() and ReadFile() inconsistent")
                end, w2))).
Proof.
  split.
  - intros H this w w1 _.
    split.
    + intros s nread s' w2 R.
      unfold Posix.read_raw, Posix.get_errno. unfold_m. rewrite R. simpl.
      destruct ((nread =? -1) && negb (Posix.errno w2 =? Posix.EAGAIN));
        reflexivity.
    + intros F C. rewrite PosixFacts.get_term_size_result, F.
      destruct (N.eqb_spec (Posix.ws_col (Posix.window w1)) 0);
        [contradiction | reflexivity].
  - intros this w w1 [Ho Hi] _.
    split; [|split].
    + intros inf F r.
      unfold Win32.get_term_size, Win32.GetConsoleScreenBufferInfo,
        Win32.enter.
      unfold_m. unfold Win32.next_call_fails in F. rewrite F, Ho.
      reflexivity.
    + intros s K. unfold Win32.read_raw, Win32.kbhit. unfold_m.
      rewrite K. reflexivity.
    + intros s o w2 K R.
      unfold Win32.read_raw. unfold_m.
      unfold Win32.kbhit in *. simpl in *. rewrite K, R.
      destruct o as [[|b [|c l]]|]; try reflexivity.
      destruct (Z.eqb_spec (Z.of_nat (List.length (b :: c :: l))) 1) as [L|L];
        [|reflexivity].
      exfalso. simpl List.length in L. lia.
Qed.

(** A released terminal session whose [read] fails with EIO and whose
    window is asked; a released console session with no key reported,
    and one whose [ReadFile] fails. *)
Lemma members_after_release_witness :
  (let this := Posix.mk_BaseTerminal Sample.cooked in
   let w := Sample.xterm_with [None; Some 5] [] (Posix.mk_winsize 24 80 0 0) in
   let w1 := snd (Posix.BaseTerminal_dtor this w) in
   @Posix.read_raw Posix.linux this 0 w1
   = (Throws (runtime_error "read() failed"), snd (Posix.read 0 w1)))
  /\
  (let this := Posix.mk_BaseTerminal Sample.cooked in
   let w1 := snd (Posix.BaseTerminal_dtor this Sample.xterm) in
   fst (Posix.get_term_size this w1) = Returns (24, 80))
  /\
  (let this := Win32.mk_BaseTerminal Win32.CONOUT Win32.CONIN 3 7 in
   let w1 := snd (Win32.BaseTerminal_dtor this Sample.conhost) in
   fst (Win32.get_term_size this Sample.window_80x25 w1) = Returns (25, 80)
   /\ Win32.read_raw this 0 w1 = (Returns (false, 0), snd (Win32.kbhit w1)))
  /\
  (let this := Win32.mk_BaseTerminal Win32.CONOUT Win32.CONIN 3 7 in
   let w := Sample.conhost_with [false; false; true] true []
              Sample.window_80x25 in
   let w1 := snd (Win32.BaseTerminal_dtor this w) in
   let w2 := snd (Win32.ReadFile Win32.CONIN (snd (Win32.kbhit w1))) in
   Win32.read_raw this 0 w1
   = (Throws (runtime_error "ReadFile() failed"), w2)).
Proof.
  split; [|split; [|split]].
  - intros this w w1.
    apply (proj1 (proj1 members_after_release Posix.linux this w w1 eq_refl)
             0 (-1) 0 (snd (Posix.read 0 w1))).
    reflexivity.
  - intros this w1.
    apply (proj2 (proj1 members_after_release Posix.linux this Sample.xterm w1
                    eq_refl)).
    + reflexivity.
    + discriminate.
  - intros this w1.
    destruct (proj2 members_after_release this Sample.conhost w1
                (conj eq_refl eq_refl) eq_refl) as (S & A & _).
    split.
    + apply (S Sample.window_80x25). reflexivity.
    + apply (A 0). reflexivity.
  - intros this w w1 w2.
    destruct (proj2 members_after_release this w w1
                (conj eq_refl eq_refl) eq_refl) as (_ & _ & R).
    apply (R 0 None w2); reflexivity.
Defined.

(** C9, as the claim states it, fails on the Windows body: construction
    turns the output mode 3 of the console into 15, adding virtual
    terminal processing and [DISABLE_NEWLINE_AUTO_RETURN]. *)
Lemma ctor_changes_console_output_mode :
  let w0 := Sample.conhost in
  let w1 := snd (@Win32.BaseTerminal_ctor Win32.winsdk true w0) in
  fst (@Win32.BaseTerminal_ctor Win32.winsdk true w0)
  = Returns (Win32.mk_BaseTerminal Win32.CONOUT Win32.CONIN 3 7)
  /\ Win32.out_mode w0 = 3
  /\ Win32.out_mode w1 = 15.
Proof. repeat split; reflexivity. Qed.

(** C9, amended - output configuration.  On the POSIX body the output
    flags [c_oflag] of the terminal are, after the constructor (whatever
    its outcome) and after any run of members and environment events,
    what they were before.  On the Windows body the constructor leaves
    the output mode of the console as it was or with the two requested
    flags added, the latter whenever it returns; every other bit of the
    output mode keeps its value, and members and environment events do
    not change the output mode. *)
Theorem output_configuration :
  (forall (H : Posix.termios_h) (d : bool) (w0 : Posix.World),
      Posix.c_oflag (Posix.tty (snd (Posix.BaseTerminal_ctor d w0)))
      = Posix.c_oflag (Posix.tty w0))
  /\
  (forall (H : Posix.termios_h) (this : Posix.BaseTerminal)
          (evs : list Posix.event) (w : Posix.World),
      Posix.c_oflag (Posix.tty (Posix.run this evs w))
      = Posix.c_oflag (Posix.tty w))
  /\
  (forall (H : Win32.wincon_h) (d : bool) (w0 : Win32.World),
      let requested :=
        Z.lor Win32.ENABLE_VIRTUAL_TERMINAL_PROCESSING
              Win32.DISABLE_NEWLINE_AUTO_RETURN in
      let w1 := snd (Win32.BaseTerminal_ctor d w0) in
      (Win32.out_mode w1 = Win32.out_mode w0
       \/ Win32.out_mode w1 = Z.lor (Win32.out_mode w0) requested)
      /\ (is_throw (fst (Win32.BaseTerminal_ctor d w0)) = false ->
          Win32.out_mode w1 = Z.lor (Win32.out_mode w0) requested)
      /\ (forall n, Z.testbit requested n = false ->
                    Z.testbit (Win32.out_mode w1) n
                    = Z.testbit (Win32.out_mode w0) n))
  /\
  (forall (this : Win32.BaseTerminal) (evs : list Win32.event)
          (w : Win32.World),
      Win32.out_mode (Win32.run this evs w) = Win32.out_mode w).
Proof.
  split; [|split; [|split]].
  - intros H d w0.
    destruct (Posix.BaseTerminal_ctor d w0) as [[this|e] w1] eqn:E; simpl.
    + apply PosixFacts.tty_ctor_returns in E. destruct E as [_ T].
      rewrite T. destruct d; reflexivity.
    + apply PosixFacts.tty_ctor_throws in E. rewrite E. reflexivity.
  - intros H this evs w. rewrite PosixFacts.run_tty. reflexivity.
  - intros H d w0 requested w1.
    assert (Hcases :
              (Win32.out_mode w1 = Win32.out_mode w0
               /\ is_throw (fst (Win32.BaseTerminal_ctor d w0)) = true)
              \/ Win32.out_mode w1 = Z.lor (Win32.out_mode w0) requested).
    { subst w1.
      destruct (Win32Facts.console_ctor_result d w0)
        as (w1' & [(this & E & _ & O & _) | [(e & E & [O _]) | (E & O & _)]]);
        rewrite E; simpl.
      - right. exact O.
      - left. split; [exact O | reflexivity].
      - right. exact O. }
    split; [|split].
    + destruct Hcases as [[O _]|O]; [left | right]; exact O.
    + intros NT. destruct Hcases as [[_ T]|O]; [congruence | exact O].
    + intros n R. destruct Hcases as [[O _]|O]; rewrite O; [reflexivity|].
      rewrite Z.lor_spec, R, orb_false_r. reflexivity.
  - intros this evs w. apply Win32Facts.run_modes.
Qed.

(** The console's output mode through a construction: the two flags are
    added and bit 0 ([ENABLE_PROCESSED_OUTPUT]) keeps its value. *)
Lemma output_configuration_witness :
  let w0 := Sample.conhost in
  let w1 := snd (@Win32.BaseTerminal_ctor Win32.winsdk true w0) in
  Win32.out_mode w1 = Z.lor (Win32.out_mode w0) (Z.lor 4 8)
  /\ Z.testbit (Win32.out_mode w1) 0 = Z.testbit (Win32.out_mode w0) 0.
Proof.
  intros w0 w1.
  destruct (proj1 (proj2 (proj2 output_configuration)) Win32.winsdk true w0)
    as (_ & R & B).
  split.
  - apply R. reflexivity.
  - apply B. reflexivity.
Defined.

(** C2 - construction that fails.  On the POSIX body a constructor that
    throws leaves the terminal attributes as they were (and one that
    returns leaves the raw ones).  On the Windows body it does not: when
    the second [SetConsoleMode] fails, after the first has succeeded, the
    constructor throws with the output mode of the console changed from
    3 to 15, and makes no call to put it back. *)
Theorem ctor_failure_after_partial_apply :
  (forall (H : Posix.termios_h) (d : bool) (w0 : Posix.World),
      Posix.tty (snd (Posix.BaseTerminal_ctor d w0))
      = if is_throw (fst (Posix.BaseTerminal_ctor d w0))
        then Posix.tty w0
        else Posix.make_raw d (Posix.tty w0))
  /\
  (let w0 := Sample.conhost_with [false; false; false; false; false; true]
               false [] Sample.window_80x25 in
   let w1 := snd (@Win32.BaseTerminal_ctor Win32.winsdk true w0) in
   fst (@Win32.BaseTerminal_ctor Win32.winsdk true w0)
   = Throws (runtime_error "SetConsoleMode() failed")
   /\ Win32.out_mode w0 = 3
   /\ Win32.out_mode w1 = 15
   /\ Win32.in_mode w1 = Win32.in_mode w0
   /\ Win32.trace w1
      = [Win32.call_GetStdHandle Win32.STD_OUTPUT_HANDLE;
         Win32.call_GetStdHandle Win32.STD_INPUT_HANDLE;
         Win32.call_GetConsoleMode Win32.CONOUT;
         Win32.call_GetConsoleMode Win32.CONIN;
         Win32.call_SetConsoleMode Win32.CONOUT 15;
         Win32.call_SetConsoleMode Win32.CONIN 513]).
Proof.
  split.
  - intros H d w0. apply PosixFacts.tty_after_ctor.
  - repeat split; reflexivity.
Qed.

(** C7 - signal passthrough.  On the POSIX body the attributes applied
    with [disable_ctrl_c = true] have [ISIG] cleared.  On the Windows
    body the argument is not looked at: constructed with
    [disable_ctrl_c = true] on a console whose input mode has
    [ENABLE_PROCESSED_INPUT] (the system handles Ctrl-C), the session
    applies the input mode 513, in which that flag is still set, the
    same as with [disable_ctrl_c = false]. *)
Theorem ctor_signal_generation :
  (forall (H : Posix.termios_h) (w0 w1 : Posix.World)
          (this : Posix.BaseTerminal),
      Posix.BaseTerminal_ctor true w0 = (Returns this, w1) ->
      Z.land (Posix.c_lflag (Posix.tty w1)) Posix.ISIG = 0)
  /\
  (let H := Win32.winsdk in
   let w0 := Sample.conhost in
   let w1 := snd (Win32.BaseTerminal_ctor true w0) in
   fst (Win32.BaseTerminal_ctor true w0)
   = Returns (Win32.mk_BaseTerminal Win32.CONOUT Win32.CONIN 3 7)
   /\ Z.land (Win32.in_mode w0) Win32.ENABLE_PROCESSED_INPUT
      = Win32.ENABLE_PROCESSED_INPUT
   /\ Win32.in_mode w1 = 513
   /\ Z.land (Win32.in_mode w1) Win32.ENABLE_PROCESSED_INPUT
      = Win32.ENABLE_PROCESSED_INPUT
   /\ Win32.ENABLE_PROCESSED_INPUT <> 0
   /\ Win32.BaseTerminal_ctor true w0 = Win32.BaseTerminal_ctor false w0).
Proof.
  split.
  - intros H w0 w1 this E.
    apply PosixFacts.tty_ctor_returns in E. destruct E as [_ T].
    rewrite T. apply PosixFacts.make_raw_clears_ISIG.
  - repeat split; try reflexivity. discriminate.
Qed.

(** The Linux terminal constructed with [disable_ctrl_c = true]. *)
Lemma ctor_signal_generation_witness :
  let w1 := snd (@Posix.BaseTerminal_ctor Posix.linux true Sample.xterm) in
  Z.land (Posix.c_lflag (Posix.tty w1)) (@Posix.ISIG Posix.linux) = 0.
Proof.
  intros w1.
  apply (proj1 ctor_signal_generation Posix.linux Sample.xterm w1
           (Posix.mk_BaseTerminal Sample.cooked)).
  reflexivity.
Defined.

(** * Further properties of the members *)

(** Equalities of flag words, bit by bit. *)
Ltac bitwise :=
  apply Z.bits_inj'; intros ?n ?Hn;
  rewrite ?Z.land_spec, ?Z.lor_spec, ?Z.lnot_spec, ?Z.bits_0 by assumption.

Ltac case_bits :=
  repeat match goal with
         | |- context [Z.testbit ?a ?n] => destruct (Z.testbit a n) eqn:?
         end.

Module FlagFacts.

Lemma clear_bits_spec (x m n : Z) :
  0 <= n ->
  Z.testbit (clear_bits x m) n = Z.testbit x n && negb (Z.testbit m n).
Proof.
  intros Hn. unfold clear_bits. rewrite Z.land_spec, Z.lnot_spec by exact Hn.
  reflexivity.
Qed.

Lemma clear_bits_cleared (x m : Z) : Z.land (clear_bits x m) m = 0.
Proof.
  unfold clear_bits. bitwise. case_bits; reflexivity.
Qed.

Lemma clear_bits_twice (x m k : Z) :
  Z.land (clear_bits (clear_bits x m) k) m = 0.
Proof.
  unfold clear_bits. bitwise. case_bits; reflexivity.
Qed.

Lemma clear_bits_idem (x m : Z) :
  clear_bits (clear_bits x m) m = clear_bits x m.
Proof.
  unfold clear_bits. bitwise. case_bits; reflexivity.
Qed.

Lemma lor_set (x m : Z) : Z.land (Z.lor x m) m = m.
Proof.
  bitwise. case_bits; reflexivity.
Qed.

Lemma lor_idem (x m : Z) : Z.lor (Z.lor x m) m = Z.lor x m.
Proof.
  bitwise. case_bits; reflexivity.
Qed.

Lemma uint32_land (x : Z) :
  Range.uint32 x <-> Z.land x (Z.ones 32) = x.
Proof.
  unfold Range.uint32. rewrite Z.land_ones by lia. split.
  - intros R. apply Z.mod_small. exact R.
  - intros E. rewrite <- E. apply Z.mod_pos_bound. lia.
Qed.

Lemma uint32_bits (x : Z) :
  Range.uint32 x ->
  forall n, Z.testbit x n = Z.testbit x n && Z.testbit (Z.ones 32) n.
Proof.
  intros R n. apply uint32_land in R.
  rewrite <- Z.land_spec, R. reflexivity.
Qed.

Lemma uint32_clear_bits (x m : Z) :
  Range.uint32 x -> Range.uint32 (clear_bits x m).
Proof.
  intros R. apply uint32_land. unfold clear_bits. bitwise.
  rewrite (uint32_bits x R n). case_bits; reflexivity.
Qed.

Lemma uint32_lor (x m : Z) :
  Range.uint32 x -> Range.uint32 m -> Range.uint32 (Z.lor x m).
Proof.
  intros Rx Rm. apply uint32_land. bitwise.
  rewrite (uint32_bits x Rx n), (uint32_bits m Rm n).
  case_bits; reflexivity.
Qed.

Lemma clear_bits_le (x m : Z) : 0 <= x -> 0 <= clear_bits x m <= x.
Proof.
  intros Hx. unfold clear_bits. rewrite <- Z.ldiff_land.
  assert (N1 : 0 <= Z.ldiff x m) by (apply Z.ldiff_nonneg; left; exact Hx).
  assert (N2 : 0 <= Z.land x m) by (apply Z.land_nonneg; left; exact Hx).
  assert (D : Z.land (Z.ldiff x m) (Z.land x m) = 0).
  { bitwise. rewrite Z.ldiff_spec. case_bits; reflexivity. }
  assert (S : Z.ldiff x m + Z.land x m = x).
  { rewrite Z.add_nocarry_lxor by exact D. rewrite Z.lxor_lor by exact D.
    apply Z.lor_ldiff_and. }
  lia.
Qed.

Lemma length_array_set (a : list Z) (i : nat) (v : Z) :
  List.length (array_set a i v) = List.length a.
Proof.
  revert i. induction a as [|x a IH]; intros [|i]; simpl; auto.
Qed.

Lemma nth_array_set_eq (a : list Z) (i : nat) (v d : Z) :
  (i < List.length a)%nat -> nth i (array_set a i v) d = v.
Proof.
  revert i. induction a as [|x a IH]; intros [|i]; simpl; intros L;
    try lia; auto. apply IH. lia.
Qed.

Lemma nth_array_set_neq (a : list Z) (i j : nat) (v d : Z) :
  i <> j -> nth j (array_set a i v) d = nth j a d.
Proof.
  revert i j. induction a as [|x a IH]; intros [|i] [|j]; simpl; intros N;
    try congruence; auto.
Qed.

Lemma array_set_idem (a : list Z) (i : nat) (v : Z) :
  array_set (array_set a i v) i v = array_set a i v.
Proof.
  revert i. induction a as [|x a IH]; intros [|i]; simpl; auto.
  rewrite IH. reflexivity.
Qed.

Lemma array_set_comm (a : list Z) (i j : nat) (v : Z) :
  array_set (array_set a i v) j v = array_set (array_set a j v) i v.
Proof.
  revert i j. induction a as [|x a IH]; intros [|i] [|j]; simpl; auto.
  rewrite IH. reflexivity.
Qed.

End FlagFacts.

Module RawFacts.
Import Posix.

Section WithConstants.
Context {H : termios_h}.

(** The members of the raw attributes, one by one. *)
Lemma make_raw_members (d : bool) (t : termios) :
  c_iflag (make_raw d t)
  = clear_bits (c_iflag t)
      (Z.lor (Z.lor (Z.lor (Z.lor BRKINT ICRNL) INPCK) ISTRIP) IXON)
  /\ c_oflag (make_raw d t) = c_oflag t
  /\ c_cflag (make_raw d t) = Z.lor (c_cflag t) CS8
  /\ c_lflag (make_raw d t)
     = (if d
        then clear_bits
               (clear_bits (c_lflag t) (Z.lor (Z.lor ECHO ICANON) IEXTEN)) ISIG
        else clear_bits (c_lflag t) (Z.lor (Z.lor ECHO ICANON) IEXTEN))
  /\ c_cc (make_raw d t) = array_set (array_set (c_cc t) VMIN 0) VTIME 0.
Proof. destruct d; repeat split; reflexivity. Qed.

Lemma termios_eq (t u : termios) :
  c_iflag t = c_iflag u -> c_oflag t = c_oflag u ->
  c_cflag t = c_cflag u -> c_lflag t = c_lflag u ->
  c_cc t = c_cc u -> t = u.
Proof.
  destruct t, u; simpl; intros; subst; reflexivity.
Qed.

(** Deriving raw attributes from raw attributes: the flags stay cleared,
    and [ISIG] is cleared as soon as one of the two derivations asks. *)
Lemma make_raw_twice (d1 d2 : bool) (t : termios) :
  make_raw d2 (make_raw d1 t) = make_raw (d1 || d2) t.
Proof.
  destruct (make_raw_members d2 (make_raw d1 t)) as (I2 & O2 & C2 & L2 & K2).
  destruct (make_raw_members d1 t) as (I1 & O1 & C1 & L1 & K1).
  destruct (make_raw_members (d1 || d2) t) as (I3 & O3 & C3 & L3 & K3).
  apply termios_eq.
  - rewrite I2, I1, I3. apply FlagFacts.clear_bits_idem.
  - congruence.
  - rewrite C2, C1, C3. apply FlagFacts.lor_idem.
  - rewrite L2, L1, L3. unfold clear_bits.
    destruct d1, d2; simpl; bitwise; case_bits; reflexivity.
  - rewrite K2, K1, K3.
    rewrite (FlagFacts.array_set_comm
               (array_set (array_set (c_cc t) VMIN 0) VTIME 0) VMIN VTIME).
    rewrite FlagFacts.array_set_idem.
    rewrite (FlagFacts.array_set_comm (array_set (c_cc t) VMIN 0) VTIME VMIN).
    rewrite FlagFacts.array_set_idem.
    reflexivity.
Qed.

End WithConstants.
End RawFacts.

(** X1 - raw-mode flags (POSIX).  In the attributes a returning
    constructor has applied, the five input flags and [ECHO], [ICANON],
    [IEXTEN] are clear and [CS8] is set; every bit of [c_iflag] outside
    the five, every bit of [c_cflag] outside [CS8], and every bit of
    [c_lflag] outside the three and [ISIG] has the value it had. *)
Theorem raw_mode_flags :
  forall (H : Posix.termios_h) (d : bool) (w0 w1 : Posix.World)
         (this : Posix.BaseTerminal),
    Posix.BaseTerminal_ctor d w0 = (Returns this, w1) ->
    let imask :=
      Z.lor (Z.lor (Z.lor (Z.lor Posix.BRKINT Posix.ICRNL) Posix.INPCK)
               Posix.ISTRIP) Posix.IXON in
    let lmask := Z.lor (Z.lor Posix.ECHO Posix.ICANON) Posix.IEXTEN in
    let old := Posix.tty w0 in
    let new := Posix.tty w1 in
    Z.land (Posix.c_iflag new) imask = 0
    /\ Z.land (Posix.c_lflag new) lmask = 0
    /\ Z.land (Posix.c_cflag new) Posix.CS8 = Posix.CS8
    /\ (forall n, 0 <= n -> Z.testbit imask n = false ->
                  Z.testbit (Posix.c_iflag new) n
                  = Z.testbit (Posix.c_iflag old) n)
    /\ (forall n, 0 <= n -> Z.testbit Posix.CS8 n = false ->
                  Z.testbit (Posix.c_cflag new) n
                  = Z.testbit (Posix.c_cflag old) n)
    /\ (forall n, 0 <= n -> Z.testbit lmask n = false ->
                  Z.testbit Posix.ISIG n = false ->
                  Z.testbit (Posix.c_lflag new) n
                  = Z.testbit (Posix.c_lflag old) n).
Proof.
  intros H d w0 w1 this E imask lmask old new.
  apply PosixFacts.tty_ctor_returns in E. destruct E as [_ T].
  subst old new. rewrite T.
  destruct (RawFacts.make_raw_members d (Posix.tty w0)) as (I & _ & C & L & _).
  rewrite I, C, L. fold imask lmask.
  split; [apply FlagFacts.clear_bits_cleared|].
  split.
  { destruct d; [apply FlagFacts.clear_bits_twice
                | apply FlagFacts.clear_bits_cleared]. }
  split; [apply FlagFacts.lor_set|].
  split.
  { intros n Hn B. rewrite FlagFacts.clear_bits_spec, B by exact Hn.
    apply andb_true_r. }
  split.
  { intros n Hn B. rewrite Z.lor_spec, B. apply orb_false_r. }
  intros n Hn B S.
  destruct d; rewrite ?FlagFacts.clear_bits_spec, ?B, ?S by exact Hn;
    simpl; rewrite ?andb_true_r; reflexivity.
Qed.

(** The Linux terminal in cooked mode, constructed with
    [disable_ctrl_c = true]: local flags 0x8A3B become 0x0A30. *)
Lemma raw_mode_flags_witness :
  let w1 := snd (@Posix.BaseTerminal_ctor Posix.linux true Sample.xterm) in
  Z.land (Posix.c_iflag (Posix.tty w1)) (2 + 256 + 16 + 32 + 1024) = 0
  /\ Z.land (Posix.c_lflag (Posix.tty w1)) (8 + 2 + 32768) = 0
  /\ Z.land (Posix.c_cflag (Posix.tty w1)) 48 = 48.
Proof.
  intros w1.
  destruct (raw_mode_flags Posix.linux true Sample.xterm w1
              (Posix.mk_BaseTerminal Sample.cooked) eq_refl)
    as (I & L & C & _).
  split; [exact I | split; [exact L | exact C]].
Defined.

(** X2 - signal generation kept.  Where [ISIG] is not one of [ECHO],
    [ICANON], [IEXTEN], a session constructed with
    [disable_ctrl_c = false] applies attributes in which [ISIG] is as it
    found it. *)
Theorem signal_generation_kept :
  forall (H : Posix.termios_h) (w0 w1 : Posix.World)
         (this : Posix.BaseTerminal),
    Z.land Posix.ISIG (Z.lor (Z.lor Posix.ECHO Posix.ICANON) Posix.IEXTEN) = 0 ->
    Posix.BaseTerminal_ctor false w0 = (Returns this, w1) ->
    Z.land (Posix.c_lflag (Posix.tty w1)) Posix.ISIG
    = Z.land (Posix.c_lflag (Posix.tty w0)) Posix.ISIG.
Proof.
  intros H w0 w1 this D E.
  apply PosixFacts.tty_ctor_returns in E. destruct E as [_ T].
  rewrite T. apply PosixFacts.make_raw_keeps_ISIG. exact D.
Qed.

Lemma signal_generation_kept_witness :
  let w1 := snd (@Posix.BaseTerminal_ctor Posix.linux false Sample.xterm) in
  Z.land (Posix.c_lflag (Posix.tty w1)) 1 = Z.land 35387 1.
Proof.
  intros w1.
  apply (signal_generation_kept Posix.linux Sample.xterm w1
           (Posix.mk_BaseTerminal Sample.cooked)); reflexivity.
Defined.

(** X3 - raw-mode control characters (POSIX).  In the attributes a
    returning constructor has applied, the array [c_cc] has the length it
    had, holds 0 at [VMIN] and at [VTIME] (a read returns at once with
    what is there), and is unchanged at every other index. *)
Theorem raw_mode_control_characters :
  forall (H : Posix.termios_h) (d : bool) (w0 w1 : Posix.World)
         (this : Posix.BaseTerminal),
    Posix.BaseTerminal_ctor d w0 = (Returns this, w1) ->
    let old := Posix.c_cc (Posix.tty w0) in
    let new := Posix.c_cc (Posix.tty w1) in
    List.length new = List.length old
    /\ (forall dflt, (Posix.VMIN < List.length old)%nat ->
                     nth Posix.VMIN new dflt = 0)
    /\ (forall dflt, (Posix.VTIME < List.length old)%nat ->
                     nth Posix.VTIME new dflt = 0)
    /\ (forall i dflt, i <> Posix.VMIN -> i <> Posix.VTIME ->
                       nth i new dflt = nth i old dflt).
Proof.
  intros H d w0 w1 this E old new.
  apply PosixFacts.tty_ctor_returns in E. destruct E as [_ T].
  subst old new. rewrite T.
  destruct (RawFacts.make_raw_members d (Posix.tty w0)) as (_ & _ & _ & _ & K).
  rewrite K. clear K T.
  split; [rewrite !FlagFacts.length_array_set; reflexivity|].
  split.
  { intros dflt L.
    destruct (Nat.eq_dec Posix.VTIME Posix.VMIN) as [Eq|Ne].
    - rewrite Eq. apply FlagFacts.nth_array_set_eq.
      rewrite FlagFacts.length_array_set. exact L.
    - rewrite FlagFacts.nth_array_set_neq by exact Ne.
      apply FlagFacts.nth_array_set_eq. exact L. }
  split.
  { intros dflt L. apply FlagFacts.nth_array_set_eq.
    rewrite FlagFacts.length_array_set. exact L. }
  intros i dflt N1 N2.
  rewrite !FlagFacts.nth_array_set_neq by congruence. reflexivity.
Qed.

(** The Linux terminal: [c_cc[VMIN]] was 1 and [c_cc[VINTR]] stays 3. *)
Lemma raw_mode_control_characters_witness :
  let w1 := snd (@Posix.BaseTerminal_ctor Posix.linux true Sample.xterm) in
  let new := Posix.c_cc (Posix.tty w1) in
  List.length new = 32%nat
  /\ nth 6 new 1 = 0
  /\ nth 5 new 1 = 0
  /\ nth 0 new 0 = 3.
Proof.
  intros w1 new.
  destruct (raw_mode_control_characters Posix.linux true Sample.xterm w1
              (Posix.mk_BaseTerminal Sample.cooked) eq_refl)
    as (L & M & T & O).
  split; [exact L|].
  split; [apply (M 1); simpl; lia|].
  split; [apply (T 1); simpl; lia|].
  apply (O 0%nat 0); discriminate.
Defined.

(** X4 - flag words stay in range.  When the four flag words found are
    values of [tcflag_t] and so is [CS8], the flag words a returning
    constructor has applied are values of [tcflag_t] too (no conversion
    wraps), and [c_iflag] and [c_lflag] have not grown.  Likewise the
    console modes the Windows constructor asks for are values of [DWORD]
    when the modes found and the requested flags are. *)
Theorem raw_mode_in_range :
  (forall (H : Posix.termios_h) (d : bool) (w0 w1 : Posix.World)
          (this : Posix.BaseTerminal),
      Range.termios_flags (Posix.tty w0) ->
      Range.uint32 Posix.CS8 ->
      Posix.BaseTerminal_ctor d w0 = (Returns this, w1) ->
      Range.termios_flags (Posix.tty w1)
      /\ Posix.c_iflag (Posix.tty w1) <= Posix.c_iflag (Posix.tty w0)
      /\ Posix.c_lflag (Posix.tty w1) <= Posix.c_lflag (Posix.tty w0))
  /\
  (forall (H : Win32.wincon_h) (d : bool) (w0 w1 : Win32.World)
          (this : Win32.BaseTerminal),
      Range.uint32 (Win32.out_mode w0) ->
      Range.uint32 (Win32.in_mode w0) ->
      Range.uint32 Win32.ENABLE_VIRTUAL_TERMINAL_PROCESSING ->
      Range.uint32 Win32.DISABLE_NEWLINE_AUTO_RETURN ->
      Range.uint32 Win32.ENABLE_VIRTUAL_TERMINAL_INPUT ->
      Win32.BaseTerminal_ctor d w0 = (Returns this, w1) ->
      Range.uint32 (Win32.out_mode w1) /\ Range.uint32 (Win32.in_mode w1)).
Proof.
  split.
  - intros H d w0 w1 this (Ri & Ro & Rc & Rl) R8 E.
    apply PosixFacts.tty_ctor_returns in E. destruct E as [_ T].
    rewrite T.
    destruct (RawFacts.make_raw_members d (Posix.tty w0))
      as (I & O & C & L & _).
    unfold Range.termios_flags. rewrite I, O, C, L.
    split; [split; [|split; [|split]]|split].
    + apply FlagFacts.uint32_clear_bits. exact Ri.
    + exact Ro.
    + apply FlagFacts.uint32_lor; assumption.
    + destruct d; repeat apply FlagFacts.uint32_clear_bits; exact Rl.
    + apply FlagFacts.clear_bits_le. apply Ri.
    + destruct d.
      * pose proof (FlagFacts.clear_bits_le (Posix.c_lflag (Posix.tty w0))
                      (Z.lor (Z.lor Posix.ECHO Posix.ICANON) Posix.IEXTEN)
                      (proj1 Rl)) as [A B].
        pose proof (FlagFacts.clear_bits_le _ Posix.ISIG A). lia.
      * apply FlagFacts.clear_bits_le. apply Rl.
  - intros H d w0 w1 this Ro Ri Rp Rn Rv E.
    destruct (Win32Facts.console_ctor_result d w0)
      as (w1' & [(this' & E' & _ & O & I) | [(e & E' & _) | (E' & _)]]);
      rewrite E' in E; try discriminate.
    inversion E; subst. rewrite O, I.
    unfold Win32.raw_out_mode, Win32.raw_in_mode. split.
    + repeat apply FlagFacts.uint32_lor; assumption.
    + apply FlagFacts.uint32_clear_bits. apply FlagFacts.uint32_lor; assumption.
Qed.

Lemma raw_mode_in_range_witness :
  (let w1 := snd (@Posix.BaseTerminal_ctor Posix.linux true Sample.xterm) in
   Range.termios_flags (Posix.tty w1)
   /\ Posix.c_iflag (Posix.tty w1) <= 11522
   /\ Posix.c_lflag (Posix.tty w1) <= 35387)
  /\
  (let w1 := snd (@Win32.BaseTerminal_ctor Win32.winsdk true Sample.conhost) in
   Range.uint32 (Win32.out_mode w1) /\ Range.uint32 (Win32.in_mode w1)).
Proof.
  split.
  - intros w1.
    apply (proj1 raw_mode_in_range Posix.linux true Sample.xterm w1
             (Posix.mk_BaseTerminal Sample.cooked)).
    + unfold Range.termios_flags, Range.uint32. simpl. lia.
    + unfold Range.uint32. simpl. lia.
    + reflexivity.
  - intros w1.
    apply (proj2 raw_mode_in_range Win32.winsdk true Sample.conhost w1
             (Win32.mk_BaseTerminal Win32.CONOUT Win32.CONIN 3 7));
      try (unfold Range.uint32; simpl; lia).
    reflexivity.
Defined.

(** X5 - a session inside a session (POSIX).  When a second session is
    constructed while a first is live, it saves the raw attributes of the
    first as its original ones, and the attributes it applies are the raw
    ones derived once from the attributes the first found, with [ISIG]
    cleared as soon as either constructor was asked to: an inner
    [disable_ctrl_c = false] does not bring signal generation back. *)
Theorem nested_construction :
  forall (H : Posix.termios_h) (d1 d2 : bool) (w0 w1 w2 : Posix.World)
         (a b : Posix.BaseTerminal) (evs : list Posix.event),
    Posix.BaseTerminal_ctor d1 w0 = (Returns a, w1) ->
    Posix.BaseTerminal_ctor d2 (Posix.run a evs w1) = (Returns b, w2) ->
    Posix.orig_termios b = Posix.make_raw d1 (Posix.tty w0)
    /\ Posix.tty w2 = Posix.make_raw (d1 || d2) (Posix.tty w0).
Proof.
  intros H d1 d2 w0 w1 w2 a b evs Ea Eb.
  apply PosixFacts.tty_ctor_returns in Ea. destruct Ea as [_ Ta].
  apply PosixFacts.tty_ctor_returns in Eb. destruct Eb as [Ob Tb].
  rewrite PosixFacts.run_tty in Ob, Tb. rewrite Ta in Ob, Tb.
  split; [exact Ob|]. rewrite Tb. apply RawFacts.make_raw_twice.
Qed.

Lemma nested_construction_witness :
  let w1 := snd (@Posix.BaseTerminal_ctor Posix.linux true Sample.xterm) in
  let w2 := snd (@Posix.BaseTerminal_ctor Posix.linux false w1) in
  Posix.tty w1 = @Posix.make_raw Posix.linux true Sample.cooked
  /\ Posix.tty w2 = @Posix.make_raw Posix.linux true Sample.cooked.
Proof.
  intros w1 w2.
  destruct (nested_construction Posix.linux true false Sample.xterm w1 w2
              (Posix.mk_BaseTerminal Sample.cooked)
              (Posix.mk_BaseTerminal (Posix.tty w1)) [] eq_refl eq_refl)
    as [O T].
  split; [exact O | exact T].
Defined.

(** X6 - the order of release decides (POSIX).  With a session [b]
    constructed inside a session [a]: released innermost first, the
    terminal ends with the attributes [a] found; released in the order of
    construction, it ends with the raw attributes of [a], which is what
    [b] had saved. *)
Theorem nested_release_order :
  forall (H : Posix.termios_h) (d1 d2 : bool) (w0 w1 w2 : Posix.World)
         (a b : Posix.BaseTerminal),
    Posix.BaseTerminal_ctor d1 w0 = (Returns a, w1) ->
    Posix.BaseTerminal_ctor d2 w1 = (Returns b, w2) ->
    (forall w3 w4,
        Posix.BaseTerminal_dtor b w2 = (Returns tt, w3) ->
        Posix.BaseTerminal_dtor a w3 = (Returns tt, w4) ->
        Posix.tty w4 = Posix.tty w0)
    /\
    (forall w3 w4,
        Posix.BaseTerminal_dtor a w2 = (Returns tt, w3) ->
        Posix.BaseTerminal_dtor b w3 = (Returns tt, w4) ->
        Posix.tty w4 = Posix.make_raw d1 (Posix.tty w0)).
Proof.
  intros H d1 d2 w0 w1 w2 a b Ea Eb.
  apply PosixFacts.tty_ctor_returns in Ea. destruct Ea as [Oa Ta].
  apply PosixFacts.tty_ctor_returns in Eb. destruct Eb as [Ob _].
  assert (D : forall this w w',
             Posix.BaseTerminal_dtor this w = (Returns tt, w') ->
             Posix.tty w' = Posix.orig_termios this).
  { intros this w w' E.
    destruct (PosixFacts.tty_dtor_result this w) as (v & E' & T & _).
    rewrite E' in E. destruct (Posix.next_call_fails w); [discriminate|].
    inversion E; subst. exact T. }
  split; intros w3 w4 _ E2; apply D in E2; congruence.
Qed.

Lemma nested_release_order_witness :
  let w1 := snd (@Posix.BaseTerminal_ctor Posix.linux true Sample.xterm) in
  let a := Posix.mk_BaseTerminal Sample.cooked in
  let b := Posix.mk_BaseTerminal (Posix.tty w1) in
  let w2 := snd (@Posix.BaseTerminal_ctor Posix.linux true w1) in
  Posix.tty (snd (Posix.BaseTerminal_dtor a
                    (snd (Posix.BaseTerminal_dtor b w2))))
  = Sample.cooked
  /\ Posix.tty (snd (Posix.BaseTerminal_dtor b
                       (snd (Posix.BaseTerminal_dtor a w2))))
     = @Posix.make_raw Posix.linux true Sample.cooked.
Proof.
  intros w1 a b w2.
  destruct (nested_release_order Posix.linux true true Sample.xterm w1 w2 a b
              eq_refl eq_refl) as [L F].
  split.
  - apply (L (snd (Posix.BaseTerminal_dtor b w2))); reflexivity.
  - apply (F (snd (Posix.BaseTerminal_dtor a w2))); reflexivity.
Defined.

(** X7 - the outcome of the constructor (POSIX).  The constructor calls
    [tcgetattr]; when that fails it throws "tcgetattr() failed" and calls
    nothing else; otherwise it calls [tcsetattr] once with [TCSAFLUSH]
    and the raw attributes, and throws "tcsetattr() failed" when that
    fails; otherwise it returns the session holding the attributes it
    found. *)
Theorem posix_ctor_outcome :
  forall (H : Posix.termios_h) (d : bool) (w0 : Posix.World),
    let f0 := Caller.posix_call_fails 0 w0 in
    let f1 := Caller.posix_call_fails 1 w0 in
    let raw := Posix.make_raw d (Posix.tty w0) in
    fst (Posix.BaseTerminal_ctor d w0)
    = (if f0 then Throws (runtime_error "tcgetattr() failed")
       else if f1 then Throws (runtime_error "tcsetattr() failed")
       else Returns (Posix.mk_BaseTerminal (Posix.tty w0)))
    /\ Posix.trace (snd (Posix.BaseTerminal_ctor d w0))
       = Posix.trace w0
           ++ Posix.sys_tcgetattr
           :: (if f0 then []
               else [Posix.sys_tcsetattr Posix.TCSAFLUSH raw]).
Proof.
  intros H d w0 f0 f1 raw. subst f0 f1 raw.
  unfold Caller.posix_call_fails, Posix.BaseTerminal_ctor, Posix.tcgetattr,
    Posix.tcsetattr, Posix.enter.
  unfold_m.
  destruct (Posix.faults w0) as [|[e|] [|[e'|] fs]]; simpl;
    rewrite <- ?app_assoc; split; reflexivity.
Qed.

(** X8 - the outcome of the constructor (Windows).  The constructor makes
    up to six calls and stops at the first that fails, throwing the
    message of that step: the two [GetStdHandle] calls have a message
    each, the two [GetConsoleMode] calls share one, and so do the two
    [SetConsoleMode] calls.  When all six succeed it returns the session
    holding the two console handles and the two modes it found. *)
Theorem win32_ctor_outcome :
  forall (H : Win32.wincon_h) (d : bool) (w0 : Win32.World),
    let f := fun k : nat => nth k (Win32.faults w0) false in
    fst (Win32.BaseTerminal_ctor d w0)
    = (if f 0%nat
       then Throws (runtime_error "GetStdHandle(STD_OUTPUT_HANDLE) failed")
       else if f 1%nat
       then Throws (runtime_error "GetStdHandle(STD_INPUT_HANDLE) failed")
       else if f 2%nat || f 3%nat
       then Throws (runtime_error "GetConsoleMode() failed")
       else if f 4%nat || f 5%nat
       then Throws (runtime_error "SetConsoleMode() failed")
       else Returns (Win32.mk_BaseTerminal Win32.CONOUT Win32.CONIN
                       (Win32.out_mode w0) (Win32.in_mode w0))).
Proof.
  intros H d w0 f. subst f.
  unfold Win32.BaseTerminal_ctor, Win32.GetStdHandle, Win32.GetConsoleMode,
    Win32.SetConsoleMode, Win32.enter.
  unfold_m.
  destruct (Win32.faults w0) as [|[|] [|[|] [|[|] [|[|] [|[|] [|[|] fs]]]]]];
    reflexivity.
Qed.

(** X9 - a destructor that fails half-way (Windows).  On a constructed
    session the destructor restores the output mode first.  When that
    call fails it throws without calling [SetConsoleMode] for the input
    mode, and both modes are as they were.  When it succeeds and the
    second call fails, it throws with the output mode restored and the
    input mode as it was. *)
Theorem win32_dtor_partial :
  forall (this : Win32.BaseTerminal) (w : Win32.World),
    Win32.on_console this ->
    let w' := snd (Win32.BaseTerminal_dtor this w) in
    let failed :=
      Throws (runtime_error "SetConsoleMode() failed in destructor") in
    (hd false (Win32.faults w) = true ->
     fst (Win32.BaseTerminal_dtor this w) = failed
     /\ Win32.same_modes w w'
     /\ Win32.trace w'
        = Win32.trace w
            ++ [Win32.call_SetConsoleMode Win32.CONOUT
                  (Win32.dwOriginalOutMode this)])
    /\
    (hd false (Win32.faults w) = false ->
     hd false (tl (Win32.faults w)) = true ->
     fst (Win32.BaseTerminal_dtor this w) = failed
     /\ Win32.out_mode w' = Win32.dwOriginalOutMode this
     /\ Win32.in_mode w' = Win32.in_mode w).
Proof.
  intros this w Hc w' failed. subst w' failed.
  destruct (Win32Facts.console_dtor_result this w Hc) as (v & E & O & I & L).
  rewrite E. simpl. split.
  - intros F. rewrite F in *. simpl in *.
    split; [reflexivity|]. split; [split; assumption | exact L].
  - intros F0 F1. rewrite F0, F1 in *. simpl in *.
    split; [reflexivity|]. split; assumption.
Qed.

Lemma win32_dtor_partial_witness :
  let this := Win32.mk_BaseTerminal Win32.CONOUT Win32.CONIN 3 7 in
  let w := Win32.mk_World 15 513 false [] Sample.window_80x25
             [false; true] [] in
  let w' := snd (Win32.BaseTerminal_dtor this w) in
  fst (Win32.BaseTerminal_dtor this w)
  = Throws (runtime_error "SetConsoleMode() failed in destructor")
  /\ Win32.out_mode w' = 3
  /\ Win32.in_mode w' = 513.
Proof.
  intros this w w'.
  apply (proj2 (win32_dtor_partial this w (conj eq_refl eq_refl)));
    reflexivity.
Defined.

(** X10 - the calls a member makes.  [read_raw] on POSIX makes one
    [read] and nothing else, whatever it reports (no retry); on Windows
    it asks [kbhit()] and calls [ReadFile], once, only when a key is
    reported.  [get_term_size] makes the one query of its platform. *)
Theorem member_calls :
  (forall (H : Posix.termios_h) (this : Posix.BaseTerminal) (s : Z)
          (w : Posix.World),
      Posix.trace (snd (Posix.read_raw this s w))
      = Posix.trace w ++ [Posix.sys_read])
  /\
  (forall (this : Posix.BaseTerminal) (w : Posix.World),
      Posix.trace (snd (Posix.get_term_size this w))
      = Posix.trace w ++ [Posix.sys_ioctl_TIOCGWINSZ])
  /\
  (forall (this : Win32.BaseTerminal) (s : Z) (w : Win32.World),
      Win32.trace (snd (Win32.read_raw this s w))
      = Win32.trace w
          ++ Win32.call_kbhit
          :: (if Win32.key_waiting w
              then [Win32.call_ReadFile (Win32.hin this)]
              else []))
  /\
  (forall (this : Win32.BaseTerminal) (inf : Win32.CONSOLE_SCREEN_BUFFER_INFO)
          (w : Win32.World),
      Win32.trace (snd (Win32.get_term_size this inf w))
      = Win32.trace w
          ++ [Win32.call_GetConsoleScreenBufferInfo (Win32.hout this)]).
Proof.
  split; [|split; [|split]].
  - intros H this s w.
    unfold Posix.read_raw, Posix.read, Posix.get_errno, Posix.enter.
    unfold_m.
    destruct (Posix.faults w) as [|[e|] fs]; simpl;
      try destruct (Posix.input w); simpl; try case_if; reflexivity.
  - intros this w.
    unfold Posix.get_term_size, Posix.ioctl_TIOCGWINSZ, Posix.enter.
    unfold_m.
    destruct (Posix.faults w) as [|[e|] fs]; simpl;
      try case_if; reflexivity.
  - intros this s w.
    unfold Win32.read_raw, Win32.kbhit, Win32.ReadFile, Win32.enter,
      Win32.log.
    unfold_m. simpl.
    destruct (Win32.key_waiting w); simpl; [|reflexivity].
    destruct (hd false (Win32.faults w)); simpl;
      [rewrite <- app_assoc; reflexivity|].
    destruct (Win32.hin this); simpl;
      try (rewrite <- app_assoc; reflexivity).
    destruct (Win32.input w) as [|b rest]; simpl;
      rewrite <- app_assoc; reflexivity.
  - intros this inf w.
    unfold Win32.get_term_size, Win32.GetConsoleScreenBufferInfo, Win32.enter.
    unfold_m. simpl.
    destruct (hd false (Win32.faults w)); simpl; [reflexivity|].
    destruct (Win32.hout this); reflexivity.
Qed.

(** X12 - what construction and release do to pending input.  On POSIX
    the constructor and the destructor apply attributes with
    [TCSAFLUSH]: when they return, the input received and not yet read
    has been discarded; when they throw it is as it was.  On Windows
    neither touches the pending input. *)
Theorem pending_input_on_mode_change :
  (forall (H : Posix.termios_h) (d : bool) (w : Posix.World),
      Posix.input (snd (Posix.BaseTerminal_ctor d w))
      = if is_throw (fst (Posix.BaseTerminal_ctor d w))
        then Posix.input w else [])
  /\
  (forall (this : Posix.BaseTerminal) (w : Posix.World),
      Posix.input (snd (Posix.BaseTerminal_dtor this w))
      = if is_throw (fst (Posix.BaseTerminal_dtor this w))
        then Posix.input w else [])
  /\
  (forall (H : Win32.wincon_h) (d : bool) (w : Win32.World),
      Win32.input (snd (Win32.BaseTerminal_ctor d w)) = Win32.input w)
  /\
  (forall (this : Win32.BaseTerminal) (w : Win32.World),
      Win32.input (snd (Win32.BaseTerminal_dtor this w)) = Win32.input w).
Proof.
  split; [|split; [|split]].
  - intros H d w.
    unfold Posix.BaseTerminal_ctor, Posix.tcgetattr, Posix.tcsetattr,
      Posix.enter.
    unfold_m.
    destruct (Posix.faults w) as [|[e|] [|[e'|] fs]]; reflexivity.
  - intros this w.
    unfold Posix.BaseTerminal_dtor, Posix.tcsetattr, Posix.enter. unfold_m.
    destruct (Posix.faults w) as [|[e|] fs]; reflexivity.
  - intros H d w.
    unfold Win32.BaseTerminal_ctor, Win32.GetStdHandle, Win32.GetConsoleMode,
      Win32.SetConsoleMode, Win32.enter.
    unfold_m.
    destruct (Win32.faults w) as [|[|] [|[|] [|[|] [|[|] [|[|] [|[|] fs]]]]]];
      reflexivity.
  - intros this w.
    unfold Win32.BaseTerminal_dtor, Win32.SetConsoleMode, Win32.enter.
    unfold_m.
    destruct (Win32.faults w) as [|[|] [|[|] fs]]; simpl;
      destruct (Win32.hout this); simpl; try reflexivity;
      destruct (Win32.hin this); reflexivity.
Qed.

(** X13 - the size query only looks.  Whatever its outcome,
    [get_term_size] leaves the terminal attributes (the console modes),
    the pending input and the window as they were: asking the size eats
    no input and changes no mode. *)
Theorem get_term_size_read_only :
  (forall (this : Posix.BaseTerminal) (w : Posix.World),
      let w' := snd (Posix.get_term_size this w) in
      Posix.tty w' = Posix.tty w
      /\ Posix.input w' = Posix.input w
      /\ Posix.window w' = Posix.window w)
  /\
  (forall (this : Win32.BaseTerminal) (inf : Win32.CONSOLE_SCREEN_BUFFER_INFO)
          (w : Win32.World),
      let w' := snd (Win32.get_term_size this inf w) in
      Win32.same_modes w w'
      /\ Win32.input w' = Win32.input w
      /\ Win32.key_waiting w' = Win32.key_waiting w
      /\ Win32.screen w' = Win32.screen w).
Proof.
  split.
  - intros this w.
    unfold Posix.get_term_size, Posix.ioctl_TIOCGWINSZ, Posix.enter.
    unfold_m.
    destruct (Posix.faults w) as [|[e|] fs]; simpl;
      try case_if; repeat split; reflexivity.
  - intros this inf w.
    unfold Win32.get_term_size, Win32.GetConsoleScreenBufferInfo, Win32.enter.
    unfold_m. simpl.
    destruct (hd false (Win32.faults w)); simpl; [repeat split; reflexivity|].
    destruct (Win32.hout this); repeat split; reflexivity.
Qed.

(** X14 - the sizes fit.  On POSIX, with [unsigned short] members in the
    window, a returned pair has [1 <= cols <= 65535] and
    [0 <= rows <= 65535].  On Windows, with [SHORT] members in the
    window rectangle and the query succeeding, the pair is
    [(Bottom - Top + 1, Right - Left + 1)] and lies between -65534 and
    65536, so the [int] arithmetic cannot overflow; no width is refused:
    [cols] is zero or negative exactly when [Right < Left], and [rows]
    when [Bottom < Top]. *)
Theorem get_term_size_bounds :
  (forall (this : Posix.BaseTerminal) (w w' : Posix.World) (rows cols : Z),
      Range.ushort (Posix.ws_row (Posix.window w)) ->
      Range.ushort (Posix.ws_col (Posix.window w)) ->
      Posix.get_term_size this w = (Returns (rows, cols), w') ->
      1 <= cols <= 65535 /\ 0 <= rows <= 65535)
  /\
  (forall (this : Win32.BaseTerminal) (inf : Win32.CONSOLE_SCREEN_BUFFER_INFO)
          (w : Win32.World),
      Win32.on_console this ->
      Win32.next_call_fails w = false ->
      Range.small_rect (Win32.srWindow (Win32.screen w)) ->
      let r := Win32.srWindow (Win32.screen w) in
      exists rows cols,
        fst (Win32.get_term_size this inf w) = Returns (rows, cols)
        /\ rows = Win32.Bottom r - Win32.Top r + 1
        /\ cols = Win32.Right r - Win32.Left r + 1
        /\ -65534 <= rows <= 65536 /\ -65534 <= cols <= 65536
        /\ Range.int rows /\ Range.int cols
        /\ (cols <= 0 <-> Win32.Right r < Win32.Left r)
        /\ (rows <= 0 <-> Win32.Bottom r < Win32.Top r)).
Proof.
  split.
  - intros this w w' rows cols Rr Rc E.
    pose proof (PosixFacts.get_term_size_result this w) as R.
    rewrite E in R. simpl in R.
    destruct (Posix.next_call_fails w); simpl in R; [discriminate|].
    destruct (N.eqb_spec (Posix.ws_col (Posix.window w)) 0) as [Z0|NZ];
      [discriminate|].
    inversion R; subst. unfold Range.ushort in *. lia.
  - intros this inf w [Ho _] F (RL & RT & RR & RB) r.
    unfold Win32.get_term_size, Win32.GetConsoleScreenBufferInfo, Win32.enter.
    unfold_m. unfold Win32.next_call_fails in F. rewrite F, Ho. simpl.
    fold r in RL, RT, RR, RB |- *.
    unfold Range.SHORT, Range.int in *.
    eexists. eexists. split; [reflexivity|].
    repeat split; lia.
Qed.

(** An 80x24 terminal, and a console window whose right edge is left of
    its left edge by one: zero columns are returned. *)
Lemma get_term_size_bounds_witness :
  (let this := Posix.mk_BaseTerminal Sample.cooked in
   fst (Posix.get_term_size this Sample.xterm) = Returns (24, 80)
   /\ 1 <= 80 <= 65535 /\ 0 <= 24 <= 65535)
  /\
  (let this := Win32.mk_BaseTerminal Win32.CONOUT Win32.CONIN 3 7 in
   let w := Sample.conhost_with [] false []
              (Win32.mk_CSBI (Win32.mk_SMALL_RECT 5 0 4 24)) in
   exists rows cols,
     fst (Win32.get_term_size this Sample.window_80x25 w)
     = Returns (rows, cols)
     /\ rows = 25 /\ cols = 0).
Proof.
  split.
  - intros this. split; [reflexivity|].
    apply (proj1 get_term_size_bounds this Sample.xterm
             (snd (Posix.get_term_size this Sample.xterm)) 24 80);
      reflexivity.
  - intros this w.
    destruct (proj2 get_term_size_bounds this Sample.window_80x25 w
                (conj eq_refl eq_refl) eq_refl) as (rows & cols & E & R & C & _).
    + unfold Range.small_rect, Range.SHORT. simpl. lia.
    + exists rows, cols. split; [exact E|]. split; [exact R | exact C].
Defined.

(** X15 - raw console modes (Windows).  In the input mode a returning
    constructor has applied, [ENABLE_LINE_INPUT] and [ENABLE_ECHO_INPUT]
    are clear, and every other bit is set when it was set before or
    belongs to [ENABLE_VIRTUAL_TERMINAL_INPUT], and clear otherwise; in
    the output mode it has applied, the two requested flags are set. *)
Theorem win32_raw_modes :
  forall (H : Win32.wincon_h) (d : bool) (w0 w1 : Win32.World)
         (this : Win32.BaseTerminal),
    Win32.BaseTerminal_ctor d w0 = (Returns this, w1) ->
    let cleared := Z.lor Win32.ENABLE_LINE_INPUT Win32.ENABLE_ECHO_INPUT in
    let requested :=
      Z.lor Win32.ENABLE_VIRTUAL_TERMINAL_PROCESSING
            Win32.DISABLE_NEWLINE_AUTO_RETURN in
    Z.land (Win32.in_mode w1) cleared = 0
    /\ (forall n, 0 <= n -> Z.testbit cleared n = false ->
                  Z.testbit (Win32.in_mode w1) n
                  = Z.testbit (Win32.in_mode w0) n
                    || Z.testbit Win32.ENABLE_VIRTUAL_TERMINAL_INPUT n)
    /\ Z.land (Win32.out_mode w1) requested = requested.
Proof.
  intros H d w0 w1 this E cleared requested.
  destruct (Win32Facts.console_ctor_result d w0)
    as (w1' & [(this' & E' & _ & O & I) | [(e & E' & _) | (E' & _)]]);
    rewrite E' in E; try discriminate.
  inversion E; subst this' w1'. rewrite O, I.
  unfold Win32.raw_out_mode, Win32.raw_in_mode. fold cleared requested.
  split; [apply FlagFacts.clear_bits_cleared|].
  split; [|apply FlagFacts.lor_set].
  intros n Hn B.
  rewrite FlagFacts.clear_bits_spec, B, Z.lor_spec by exact Hn.
  apply andb_true_r.
Qed.

(** The console in its usual mode: input mode 7 becomes 513. *)
Lemma win32_raw_modes_witness :
  let w1 := snd (@Win32.BaseTerminal_ctor Win32.winsdk true Sample.conhost) in
  Z.land (Win32.in_mode w1) (Z.lor 2 4) = 0
  /\ Z.testbit (Win32.in_mode w1) 0 = true
  /\ Z.land (Win32.out_mode w1) (Z.lor 4 8) = Z.lor 4 8.
Proof.
  intros w1.
  destruct (win32_raw_modes Win32.winsdk true Sample.conhost w1
              (Win32.mk_BaseTerminal Win32.CONOUT Win32.CONIN 3 7) eq_refl)
    as (C & B & O).
  split; [exact C|]. split; [|exact O].
  rewrite (B 0); [reflexivity | lia | reflexivity].
Defined.
